(** * Verification of the expense-automation workflow (src/src/index.ts)

    Shallow embedding of [ExpenseAutomationWorkflow.run]: the six durable
    steps, the Zod schemas that validate the parsed email and the model
    output, the PII redaction, the date reformatting and the D1 statements
    over the relational schema of src/schema.sql. *)

From Stdlib Require Import String Ascii List ZArith Bool Lia.
Import ListNotations.
Open Scope string_scope.
Local Set Warnings "-register-all".

(* ------------------------------------------------------------------ *)
(** ** JavaScript string primitives *)

Module JsString.

(** A JavaScript string is truthy iff it is non-empty. *)
Definition truthy (s : string) : bool :=
  match s with EmptyString => false | _ => true end.

Fixpoint drop (n : nat) (s : string) : string :=
  match n, s with
  | O, _ => s
  | S n', String _ s' => drop n' s'
  | S _, EmptyString => EmptyString
  end.

(** [s.replace(pat, rep)] with a string pattern: only the first
    occurrence is replaced; an empty pattern matches at position 0.
    (The replacement texts of the source contain no [$] pattern.) *)
Fixpoint replace (pat rep s : string) : string :=
  if prefix pat s then rep ++ drop (String.length pat) s
  else match s with
       | EmptyString => EmptyString
       | String c s' => String c (replace pat rep s')
       end.

(** [s.replaceAll(pat, rep)] for a non-empty pattern: left-to-right,
    non-overlapping matches.  [skip] counts the characters of the last
    match that still have to be consumed. *)
Fixpoint replace_all_go (pat rep : string) (skip : nat) (s : string) : string :=
  match s with
  | EmptyString => EmptyString
  | String c s' =>
      match skip with
      | S k => replace_all_go pat rep k s'
      | O => if prefix pat s
             then rep ++ replace_all_go pat rep (String.length pat - 1) s'
             else String c (replace_all_go pat rep 0 s')
      end
  end.

(** With an empty pattern, [replaceAll] inserts the replacement before
    every character and at the end. *)
Fixpoint interleave (rep s : string) : string :=
  match s with
  | EmptyString => rep
  | String c s' => rep ++ String c (interleave rep s')
  end.

Definition replace_all (pat rep s : string) : string :=
  match pat with
  | EmptyString => interleave rep s
  | _ => replace_all_go pat rep 0 s
  end.

(** [s.includes(pat)]. *)
Fixpoint includes (pat s : string) : bool :=
  prefix pat s || match s with
                  | EmptyString => false
                  | String _ s' => includes pat s'
                  end.

(** [s.split(c)] for a one-character separator. *)
Fixpoint split (c : ascii) (s : string) : list string :=
  match s with
  | EmptyString => [EmptyString]
  | String x r =>
      let parts := split c r in
      if Ascii.eqb x c then EmptyString :: parts
      else match parts with
           | p :: ps => String x p :: ps
           | [] => [String x EmptyString]
           end
  end.

(** Template-literal interpolation of a destructured array element:
    a missing element is [undefined]. *)
Definition interp (o : option string) : string :=
  match o with Some s => s | None => "undefined" end.

End JsString.

(* ------------------------------------------------------------------ *)
(** ** Data model *)

(** Worker environment: the four configured PII literals. *)
Record Env := mkEnv {
  YOUR_NAME : string;
  YOUR_EMAIL : string;
  YOUR_ADDRESS : string;
  YOUR_POSTAL_CODE : string
}.

Definition bytes := list Byte.byte.

Record Attachment := mkAttachment {
  filename : string;
  mimeType : string;
  content : bytes
}.

(** Output of [ParsedEmailSchema.parse] (fields used by the workflow). *)
Record ParsedEmail := mkParsedEmail {
  messageId : string;
  subject : string;
  from_address : option string;
  text : option string;
  html : option string;
  attachments : list Attachment
}.

Inductive ContentType := Attachment_src | Body_src | None_src.

(** Result of step 3: [{ contentForAi, type }]. *)
Record ExtractedContent := mkExtracted {
  contentForAi : string;
  type : ContentType
}.

(* ------------------------------------------------------------------ *)
(** ** Step 3: extract text for AI (index.ts lines 88-107) *)

Section ExtractText.

(** The PDF library [unpdf]: [extractText(getDocumentProxy(bytes))] with
    merged pages; [None] when the library throws. *)
Variable pdf_text : bytes -> option string.

(** Chain of [.replace] calls of the attachment branch (line 96). *)
Definition redact_first (env : Env) (s : string) : string :=
  JsString.replace (YOUR_POSTAL_CODE env) "Payee Postal Code"
    (JsString.replace (YOUR_ADDRESS env) "Payee Address"
      (JsString.replace (YOUR_EMAIL env) "Payee Email"
        (JsString.replace (YOUR_NAME env) "Payee Name" s))).

(** Chain of [.replaceAll] calls of the body branch (line 103). *)
Definition redact_all (env : Env) (s : string) : string :=
  JsString.replace_all (YOUR_POSTAL_CODE env) "Payee Postal Code"
    (JsString.replace_all (YOUR_ADDRESS env) "Payee Address"
      (JsString.replace_all (YOUR_EMAIL env) "Payee Email"
        (JsString.replace_all (YOUR_NAME env) "Payee Name" s))).

(** The [for ... of] loop with [break]: the first attachment whose
    [mimeType] is exactly [application/pdf]. *)
Fixpoint first_pdf (atts : list Attachment) : option Attachment :=
  match atts with
  | [] => None
  | a :: r => if String.eqb (mimeType a) "application/pdf" then Some a
              else first_pdf r
  end.

(** [a?.replaceAll(...) || b?.replaceAll(...) || ''] *)
Definition js_or (a : option string) (b : string) : string :=
  match a with
  | Some s => if JsString.truthy s then s else b
  | None => b
  end.

Definition opt_truthy (o : option string) : bool :=
  match o with Some s => JsString.truthy s | None => false end.

(** The body of the step; [None] is a thrown exception. *)
Definition extract_text (env : Env) (e : ParsedEmail) : option ExtractedContent :=
  if Nat.ltb 0 (length (attachments e)) then
    match first_pdf (attachments e) with
    | Some a =>
        match pdf_text (content a) with
        | Some t => Some (mkExtracted (redact_first env t) Attachment_src)
        | None => None
        end
    | None => Some (mkExtracted "" Attachment_src)
    end
  else if opt_truthy (text e) || opt_truthy (html e) then
    let c := js_or (option_map (redact_all env) (text e))
               (js_or (option_map (redact_all env) (html e)) "") in
    Some (mkExtracted c Body_src)
  else Some (mkExtracted "" None_src).

End ExtractText.

(* ------------------------------------------------------------------ *)
(** ** Model output and [ExpenseSchema] (index.ts lines 38-47) *)

(** A JSON value as returned by the model binding.  JSON numbers are
    kept as integers (amounts in the smallest unit); no claim depends on
    fractional amounts. *)
Inductive json :=
| JNull
| JBool (b : bool)
| JNum (n : Z)
| JStr (s : string)
| JArr (xs : list json)
| JObj (fields : list (string * json)).

(** Property access on a parsed JSON object: with duplicate keys the last
    one wins, as with [JSON.parse]. *)
Definition obj_get (fields : list (string * json)) (k : string) : option json :=
  match find (fun kv => String.eqb (fst kv) k) (rev fields) with
  | Some (_, v) => Some v
  | None => None
  end.

Inductive ZodIssueCode := invalid_type | invalid_string | too_small | too_big.

Record ZodIssue := mkIssue { issue_path : list string; issue_code : ZodIssueCode }.

Record ExpenseFields := mkExpense {
  vendor : string;
  expenseDate : string;
  amountValue : Z;
  currencyCode : string;
  category : string;
  description : option string   (* [None]: the key is absent (undefined) *)
}.

Definition validCategories : list string :=
  ["Meals"; "Travel"; "Office Supplies"; "Software"; "Hardware";
   "Training"; "Telecom"; "Other"].

(** [\d] of a JavaScript regular expression without the [u] flag. *)
Definition is_digit (c : ascii) : bool :=
  let n := nat_of_ascii c in Nat.leb 48 n && Nat.leb n 57.

Inductive ReClass := Digit | Lit (c : ascii).

Definition class_ok (k : ReClass) (c : ascii) : bool :=
  match k with Digit => is_digit c | Lit l => Ascii.eqb c l end.

(** Anchored match of a sequence of single-character classes. *)
Fixpoint re_full (p : list ReClass) (s : string) : bool :=
  match p, s with
  | [], EmptyString => true
  | k :: p', String c s' => class_ok k c && re_full p' s'
  | _, _ => false
  end.

(** [/^\d{2}-\d{2}-\d{4}$/] *)
Definition date_re : list ReClass :=
  [Digit; Digit; Lit "-"%char; Digit; Digit; Lit "-"%char;
   Digit; Digit; Digit; Digit].

Definition upper_ascii (c : ascii) : ascii :=
  let n := nat_of_ascii c in
  if Nat.leb 97 n && Nat.leb n 122 then ascii_of_nat (n - 32) else c.

Fixpoint to_upper (s : string) : string :=
  match s with
  | EmptyString => EmptyString
  | String c s' => String (upper_ascii c) (to_upper s')
  end.

Section Fields.

Variable key : string.

Definition bad (c : ZodIssueCode) : list ZodIssue := [mkIssue [key] c].

(** [z.string()] *)
Definition z_string (v : option json) : option string * list ZodIssue :=
  match v with
  | Some (JStr s) => (Some s, [])
  | _ => (None, bad invalid_type)
  end.

(** [z.string().regex(date_re)] *)
Definition z_date (v : option json) : option string * list ZodIssue :=
  match z_string v with
  | (Some s, _) => if re_full date_re s then (Some s, []) else (None, bad invalid_string)
  | r => r
  end.

(** [z.number()] *)
Definition z_number (v : option json) : option Z * list ZodIssue :=
  match v with
  | Some (JNum n) => (Some n, [])
  | _ => (None, bad invalid_type)
  end.

(** [z.string().length(3).toUpperCase()] *)
Definition z_currency (v : option json) : option string * list ZodIssue :=
  match z_string v with
  | (Some s, _) =>
      if Nat.ltb 3 (String.length s) then (None, bad too_big)
      else if Nat.ltb (String.length s) 3 then (None, bad too_small)
      else (Some (to_upper s), [])
  | r => r
  end.

(** [z.string().optional()]: an absent key stays absent. *)
Definition z_opt_string (v : option json) : option (option string) * list ZodIssue :=
  match v with
  | None => (Some None, [])
  | Some (JStr s) => (Some (Some s), [])
  | Some _ => (None, bad invalid_type)
  end.

End Fields.

(** [ExpenseSchema.parse(response)]: [inl] issues (a thrown [ZodError])
    or [inr] the parsed fields.  Every key of the shape is checked and the
    issues are collected in shape order. *)
Definition ExpenseSchema_parse (j : json) : list ZodIssue + ExpenseFields :=
  match j with
  | JObj fs =>
      let '(v, i1) := z_string "vendor" (obj_get fs "vendor") in
      let '(d, i2) := z_date "expenseDate" (obj_get fs "expenseDate") in
      let '(a, i3) := z_number "amountValue" (obj_get fs "amountValue") in
      let '(c, i4) := z_currency "currencyCode" (obj_get fs "currencyCode") in
      let '(k, i5) := z_string "category" (obj_get fs "category") in
      let '(o, i6) := z_opt_string "description" (obj_get fs "description") in
      match v, d, a, c, k, o with
      | Some v, Some d, Some a, Some c, Some k, Some o =>
          inr (mkExpense v d a c k o)
      | _, _, _, _, _, _ => inl (i1 ++ i2 ++ i3 ++ i4 ++ i5 ++ i6)%list
      end
  | _ => inl [mkIssue [] invalid_type]
  end.

(** Paths named by a Zod error. *)
Definition issue_keys (is : list ZodIssue) : list (list string) := map issue_path is.

(* ------------------------------------------------------------------ *)
(** ** Date reformatting of step 5 (index.ts lines 174-175) *)

(** [const [day, month, year] = d.split('-'); `${year}-${month}-${day}`] *)
Definition format_expense_date (d : string) : string :=
  let parts := JsString.split "-"%char d in
  JsString.interp (nth_error parts 2) ++ "-" ++
  JsString.interp (nth_error parts 1) ++ "-" ++
  JsString.interp (nth_error parts 0).

(** The inverse reformatting named by the spec (YYYY-MM-DD back to
    DD-MM-YYYY), written in the same style:
    [const [year, month, day] = s.split('-'); `${day}-${month}-${year}`]. *)
Definition spec_display_date (s : string) : string :=
  let parts := JsString.split "-"%char s in
  JsString.interp (nth_error parts 2) ++ "-" ++
  JsString.interp (nth_error parts 1) ++ "-" ++
  JsString.interp (nth_error parts 0).

(* ------------------------------------------------------------------ *)
(** ** The D1 store over src/schema.sql *)

Inductive EmailStatus := pending | processed | failed | skipped.

(** A row of [processed_emails]. *)
Record LedgerRow := mkLedgerRow {
  le_id : Z;
  le_message_id : string;
  le_subject : string;
  le_from_address : string;
  le_received_at : Z;
  le_processed_at : Z;
  le_status : EmailStatus;
  le_is_reimbursable : Z
}.

(** A row of [expenses]; [ex_status] below is its generated column. *)
Record ExpenseRow := mkExpenseRow {
  ex_id : Z;
  ex_email_id : Z;
  ex_amount : Z;
  ex_currency : string;
  ex_description : string;
  ex_expense_date : string;
  ex_category : string;
  ex_vendor : string;
  ex_is_reimbursable : Z
}.

(** [status GENERATED ALWAYS AS (CASE WHEN is_reimbursable = 0
    THEN 'non_reimbursable' ELSE 'pending' END) STORED] *)
Definition ex_status (r : ExpenseRow) : string :=
  if Z.eqb (ex_is_reimbursable r) 0 then "non_reimbursable" else "pending".

(** The database: both tables, the names of [categories], the
    AUTOINCREMENT sequences and the value of [CURRENT_TIMESTAMP]. *)
Record Store := mkStore {
  ledger : list LedgerRow;
  expenses : list ExpenseRow;
  categories : list string;
  seq_ledger : Z;
  seq_expense : Z;
  now : Z
}.

Inductive DbErrorKind :=
| UniqueViolation | NotNullViolation | CheckViolation | ForeignKeyViolation
| D1TypeError.

(** [{ success, meta: { last_row_id, changes } }] of a D1 [run()]. *)
Record DbResult := mkDbResult {
  db_success : bool;
  last_row_id : option Z;
  db_changes : Z
}.

(** D1 binds a JavaScript boolean as the integer 0 or 1. *)
Definition d1_bool (b : bool) : Z := if b then 1 else 0.

(** [INSERT INTO processed_emails (message_id, subject, from_address,
    is_reimbursable) VALUES (?, ?, ?, ?)]; binding [undefined] is a D1
    type error; [status], [received_at] and [processed_at] take their
    defaults. *)
Definition insert_processed_email (message_id subject : string)
    (from : option string) (reimb : bool) (st : Store)
    : DbErrorKind + (DbResult * Store) :=
  match from with
  | None => inl D1TypeError
  | Some f =>
      if existsb (fun r => String.eqb (le_message_id r) message_id) (ledger st)
      then inl UniqueViolation
      else
        let id := (seq_ledger st + 1)%Z in
        let row := mkLedgerRow id message_id subject f (now st) (now st)
                     pending (d1_bool reimb) in
        inr (mkDbResult true (Some id) 1,
             mkStore (ledger st ++ [row]) (expenses st) (categories st)
                     id (seq_expense st) (now st))
  end.

Definition lower_ascii (c : ascii) : ascii :=
  let n := nat_of_ascii c in
  if Nat.leb 65 n && Nat.leb n 90 then ascii_of_nat (n + 32) else c.

Fixpoint to_lower (s : string) : string :=
  match s with
  | EmptyString => EmptyString
  | String c s' => String (lower_ascii c) (to_lower s')
  end.

(** [COLLATE NOCASE] comparison of the parent key [categories.name]. *)
Definition nocase_eqb (a b : string) : bool := String.eqb (to_lower a) (to_lower b).

(** [INSERT INTO expenses (email_id, amount, currency, description,
    expense_date, category, vendor) VALUES (?, ?, ?, ?, ?, ?, ?)] with its
    CHECK and FOREIGN KEY constraints; [is_reimbursable] is not listed and
    takes its default 0. *)
Definition insert_expense (email_id : Z) (amount : Z) (currency : string)
    (descr : option string) (date category vendor : string) (st : Store)
    : DbErrorKind + (DbResult * Store) :=
  match descr with
  | None => inl D1TypeError
  | Some d =>
      if negb (Z.ltb 0 amount) then inl CheckViolation
      else if negb (Nat.eqb (String.length currency) 3) then inl CheckViolation
      else if negb (existsb (fun r => Z.eqb (le_id r) email_id) (ledger st))
      then inl ForeignKeyViolation
      else if negb (existsb (nocase_eqb category) (categories st))
      then inl ForeignKeyViolation
      else
        let id := (seq_expense st + 1)%Z in
        let row := mkExpenseRow id email_id amount currency d date category
                     vendor 0 in
        inr (mkDbResult true (Some id) 1,
             mkStore (ledger st) (expenses st ++ [row]) (categories st)
                     (seq_ledger st) id (now st))
  end.

(** [UPDATE processed_emails SET status = ?, processed_at =
    CURRENT_TIMESTAMP WHERE id = ?] *)
Definition set_status_row (s : EmailStatus) (t id : Z) (r : LedgerRow) : LedgerRow :=
  if Z.eqb (le_id r) id
  then mkLedgerRow (le_id r) (le_message_id r) (le_subject r) (le_from_address r)
                   (le_received_at r) t s (le_is_reimbursable r)
  else r.

Definition update_status (s : EmailStatus) (id : Z) (st : Store) : DbResult * Store :=
  let n := Z.of_nat (length (filter (fun r => Z.eqb (le_id r) id) (ledger st))) in
  (mkDbResult true None n,
   mkStore (map (set_status_row s (now st) id) (ledger st)) (expenses st)
           (categories st) (seq_ledger st) (seq_expense st) (now st)).

(** The seeded categories. *)
Definition seed_store (t : Z) : Store := mkStore [] [] validCategories 0 0 t.

(* ------------------------------------------------------------------ *)
(** ** Workflow steps (index.ts lines 11-17 and 50-225) *)

Inductive Error :=
| DbError (k : DbErrorKind)
| ZodError (issues : list ZodIssue)
| ParseError            (* PostalMime or [ParsedEmailSchema.parse] threw *)
| PdfError              (* unpdf threw *)
| AiError               (* the AI binding threw *)
| PlainError (msg : string).

Inductive outcome (A : Type) := Ok (a : A) | Throw (e : Error).
Arguments Ok {A} a.
Arguments Throw {A} e.

(** [WorkflowStepConfig]: only the retry limit is modelled; the delay
    and the timeout are wall-clock durations. *)
Record StepConfig := mkStepConfig { retries_limit : nat }.

(** [defaultConfig]: [retries: { limit: 1, delay: '0.5 seconds' },
    timeout: '10 minutes']. *)
Definition defaultConfig : StepConfig := mkStepConfig 1.

(** A step body receives the attempt number and the store. *)
Definition StepBody (A : Type) := nat -> Store -> outcome A * Store.

(** [step.do(name, config, fn)]: run [fn]; a thrown error is retried while
    retries remain.  Returns the result, the store and the number of
    attempts made. *)
Fixpoint step_go {A} (left attempt : nat) (body : StepBody A) (st : Store)
  : outcome A * Store * nat :=
  match body attempt st with
  | (Ok a, st') => (Ok a, st', S attempt)
  | (Throw e, st') =>
      match left with
      | O => (Throw e, st', S attempt)
      | S l => step_go l (S attempt) body st'
      end
  end.

Definition step_do {A} (cfg : StepConfig) (body : StepBody A) (st : Store)
  : outcome A * Store * nat :=
  step_go (retries_limit cfg) 0 body st.

(** Return value of step 2. *)
Record InitialRecord := mkInitialRecord {
  emailRecordId : option Z;
  record_success : bool
}.

(** Return value of step 5. *)
Record InsertResult := mkInsertResult {
  insert_success : bool;
  insert_last_row_id : option Z;
  insert_changes : Z
}.

(** Return value of step 6: [{ success, error }] or [{ success, changes }]. *)
Record FinalizeResult := mkFinalizeResult {
  finalize_success : bool;
  finalize_error : option string;
  finalize_changes : option Z
}.

(** What the model receives: the fixed prompt template instantiated with
    the extracted content and the category list, plus the JSON schema
    whose [category] is [enum: validCategories]. *)
Record Prompt := mkPrompt {
  prompt_content : string;
  prompt_categories : list string
}.

Definition build_prompt (c : string) : Prompt := mkPrompt c validCategories.

(** [!emailDbRecord.emailRecordId]: [undefined] and [0] are falsy. *)
Definition id_missing (o : option Z) : bool :=
  match o with None => true | Some z => Z.eqb z 0 end.

Section Workflow.

(** PostalMime followed by [ParsedEmailSchema.parse]: [None] when either
    throws. *)
Variable parse_email : bytes -> option ParsedEmail.
Variable pdf_text : bytes -> option string.

(** Step 1: parse email. *)
Definition parse_body (raw : bytes) : StepBody ParsedEmail :=
  fun _ st => match parse_email raw with
              | Some e => (Ok e, st)
              | None => (Throw ParseError, st)
              end.

(** Step 2: recordInitialEmailProcessing. *)
Definition record_body (e : ParsedEmail) : StepBody InitialRecord :=
  fun _ st =>
    match insert_processed_email (messageId e) (subject e) (from_address e) false st with
    | inl k => (Throw (DbError k), st)
    | inr (res, st') => (Ok (mkInitialRecord (last_row_id res) (db_success res)), st')
    end.

(** Step 3: extract text for AI. *)
Definition extract_body (env : Env) (e : ParsedEmail) : StepBody ExtractedContent :=
  fun _ st => match extract_text pdf_text env e with
              | Some c => (Ok c, st)
              | None => (Throw PdfError, st)
              end.

(** Step 4: send to AI for expense parsing.  [ai] is the model binding:
    the response for a prompt at a given attempt, [None] when it throws.
    The callback first awaits the (possibly rejected) step-3 promise. *)
Definition ai_body (ai : Prompt -> nat -> option json)
    (r3 : outcome ExtractedContent) : StepBody ExpenseFields :=
  fun k st =>
    match r3 with
    | Throw e => (Throw e, st)
    | Ok c =>
        match ai (build_prompt (contentForAi c)) k with
        | None => (Throw AiError, st)
        | Some response =>
            match ExpenseSchema_parse response with
            | inl issues => (Throw (ZodError issues), st)
            | inr f => (Ok f, st)
            end
        end
    end.

(** Step 5: insertExpenseRecord. *)
Definition insert_body (r4 : outcome ExpenseFields) (rec : InitialRecord)
  : StepBody InsertResult :=
  fun _ st =>
    match r4 with
    | Throw e => (Throw e, st)
    | Ok aiData =>
        match emailRecordId rec with
        | Some id =>
            if Z.eqb id 0
            then (Throw (PlainError "Failed to get emailRecordId for expense insertion."), st)
            else
              let formattedDate := format_expense_date (expenseDate aiData) in
              match insert_expense id (amountValue aiData) (currencyCode aiData)
                      (description aiData) formattedDate (category aiData)
                      (vendor aiData) st with
              | inl k => (Throw (DbError k), st)
              | inr (res, st') =>
                  (Ok (mkInsertResult (db_success res) (last_row_id res) (db_changes res)), st')
              end
        | None => (Throw (PlainError "Failed to get emailRecordId for expense insertion."), st)
        end
    end.

(** Step 6: finalizeEmailProcessingStatus. *)
Definition finalize_body (rec : InitialRecord) : StepBody FinalizeResult :=
  fun _ st =>
    match emailRecordId rec with
    | Some id =>
        if Z.eqb id 0
        then (Ok (mkFinalizeResult false (Some "Missing emailRecordId") None), st)
        else
          let '(res, st') := update_status processed id st in
          (Ok (mkFinalizeResult (db_success res) None (Some (db_changes res))), st')
    | None => (Ok (mkFinalizeResult false (Some "Missing emailRecordId") None), st)
    end.

Inductive RunOutcome :=
| Completed
| Failed (step : string) (e : Error).

(** [ExpenseAutomationWorkflow.run].  Steps 3 and 4 are started without
    [await]; their rejections surface where they are awaited, inside the
    callback of step 5, which is the first awaited step after step 2. *)
Definition run (env : Env) (ai : Prompt -> nat -> option json) (raw : bytes)
    (st : Store) : RunOutcome * Store :=
  match step_do defaultConfig (parse_body raw) st with
  | (Throw e, st1, _) => (Failed "parse email" e, st1)
  | (Ok email, st1, _) =>
  match step_do defaultConfig (record_body email) st1 with
  | (Throw e, st2, _) => (Failed "recordInitialEmailProcessing" e, st2)
  | (Ok rec, st2, _) =>
  let '(r3, st3, _) := step_do defaultConfig (extract_body env email) st2 in
  let '(r4, st4, _) := step_do defaultConfig (ai_body ai r3) st3 in
  match step_do defaultConfig (insert_body r4 rec) st4 with
  | (Throw e, st5, _) => (Failed "insertExpenseRecord" e, st5)
  | (Ok _, st5, _) =>
  match step_do defaultConfig (finalize_body rec) st5 with
  | (Throw e, st6, _) => (Failed "finalizeEmailProcessingStatus" e, st6)
  | (Ok _, st6, _) => (Completed, st6)
  end
  end
  end
  end.

End Workflow.

(* ------------------------------------------------------------------ *)
(** ** Store projections used by the statements *)

Definition ledger_ids (st : Store) : list string := map le_message_id (ledger st).

(** Number of [processed_emails] rows with the given [message_id]. *)
Definition count_message (m : string) (st : Store) : nat :=
  length (filter (fun x => String.eqb x m) (ledger_ids st)).

(** The row of [processed_emails] with the given [message_id]. *)
Definition find_ledger (m : string) (st : Store) : option LedgerRow :=
  find (fun r => String.eqb (le_message_id r) m) (ledger st).

(** Stores with the same [expenses] table. *)
Definition same_expenses (a b : Store) : Prop := expenses b = expenses a.

(** The store after step 2 recorded a fresh message. *)
Definition recorded_store (st : Store) (e : ParsedEmail) (a : string) : Store :=
  mkStore (ledger st ++ [mkLedgerRow (seq_ledger st + 1) (messageId e) (subject e) a
                           (now st) (now st) pending 0])
          (expenses st) (categories st) (seq_ledger st + 1) (seq_expense st) (now st).

(** Every row of the second store is either a non-reimbursable row or
    carries the flag of a row of the first store with the same id. *)
Definition flags_from (st st' : Store) : Prop :=
  (forall r, In r (ledger st') ->
     le_is_reimbursable r = 0%Z \/
     exists r0, In r0 (ledger st) /\ le_id r0 = le_id r /\
                le_is_reimbursable r0 = le_is_reimbursable r) /\
  (forall r, In r (expenses st') -> In r (expenses st) \/ ex_is_reimbursable r = 0%Z).

(* ------------------------------------------------------------------ *)
(** ** [ParsedEmailSchema] over the PostalMime output (index.ts lines 19-35) *)

(** A JavaScript value as PostalMime returns it; an [ArrayBuffer] is
    [MBuf]. *)
Inductive mval :=
| MNull
| MBool (b : bool)
| MNum (n : Z)
| MStr (s : string)
| MBuf (b : bytes)
| MArr (xs : list mval)
| MObj (fields : list (string * mval)).

(** Property access; an absent property is [undefined] ([None]). *)
Definition mget (fields : list (string * mval)) (k : string) : option mval :=
  match find (fun kv => String.eqb (fst kv) k) (rev fields) with
  | Some (_, v) => Some v
  | None => None
  end.

(** A Zod path element: an object key or an array index. *)
Inductive PathElem := PKey (k : string) | PIdx (i : nat).

(** [z.instanceof] is a refinement: a failing value gets a [custom] issue. *)
Inductive MimeIssueCode := mi_invalid_type | mi_custom.

Record MimeIssue := mkMimeIssue { mi_path : list PathElem; mi_code : MimeIssueCode }.

Section MimeFields.

Variable pre : list PathElem.
Variable key : string.

Definition mbad (c : MimeIssueCode) : list MimeIssue := [mkMimeIssue (pre ++ [PKey key]) c].

(** [z.string()] *)
Definition m_string (v : option mval) : option string * list MimeIssue :=
  match v with
  | Some (MStr s) => (Some s, [])
  | _ => (None, mbad mi_invalid_type)
  end.

(** [z.string().optional()] *)
Definition m_opt_string (v : option mval) : option (option string) * list MimeIssue :=
  match v with
  | None => (Some None, [])
  | Some (MStr s) => (Some (Some s), [])
  | Some _ => (None, mbad mi_invalid_type)
  end.

(** [z.instanceof(ArrayBuffer)] *)
Definition m_buffer (v : option mval) : option bytes * list MimeIssue :=
  match v with
  | Some (MBuf b) => (Some b, [])
  | _ => (None, mbad mi_custom)
  end.

End MimeFields.

(** One element of [attachments], at path [pre]. *)
Definition parse_attachment (pre : list PathElem) (v : mval)
  : option Attachment * list MimeIssue :=
  match v with
  | MObj fs =>
      let '(fn, i1) := m_string pre "filename" (mget fs "filename") in
      let '(mt, i2) := m_string pre "mimeType" (mget fs "mimeType") in
      let '(cd, i3) := m_opt_string pre "contentDisposition" (mget fs "contentDisposition") in
      let '(ci, i4) := m_opt_string pre "contentId" (mget fs "contentId") in
      let '(ct, i5) := m_buffer pre "content" (mget fs "content") in
      match fn, mt, cd, ci, ct with
      | Some fn, Some mt, Some _, Some _, Some ct => (Some (mkAttachment fn mt ct), [])
      | _, _, _, _, _ => (None, i1 ++ i2 ++ i3 ++ i4 ++ i5)%list
      end
  | _ => (None, [mkMimeIssue pre mi_invalid_type])
  end.

(** [z.array(...)]: every element is checked, issues in index order. *)
Fixpoint parse_attachment_list (i : nat) (xs : list mval)
  : option (list Attachment) * list MimeIssue :=
  match xs with
  | [] => (Some [], [])
  | x :: r =>
      let '(a, i1) := parse_attachment [PKey "attachments"; PIdx i] x in
      let '(rest, i2) := parse_attachment_list (S i) r in
      (match a, rest with Some a, Some rest => Some (a :: rest) | _, _ => None end,
       (i1 ++ i2)%list)
  end.

(** [z.array(...).default([])]: [undefined] becomes the empty array. *)
Definition parse_attachments (v : option mval) : option (list Attachment) * list MimeIssue :=
  match v with
  | None => (Some [], [])
  | Some (MArr xs) => parse_attachment_list 0 xs
  | Some _ => (None, [mkMimeIssue [PKey "attachments"] mi_invalid_type])
  end.

(** [z.object({ address: z.string().optional(), name: ... })] at [from]. *)
Definition parse_from (v : option mval) : option (option string) * list MimeIssue :=
  match v with
  | Some (MObj gs) =>
      let '(ad, i1) := m_opt_string [PKey "from"] "address" (mget gs "address") in
      let '(nm, i2) := m_opt_string [PKey "from"] "name" (mget gs "name") in
      (match ad, nm with Some ad, Some _ => Some ad | _, _ => None end, (i1 ++ i2)%list)
  | _ => (None, [mkMimeIssue [PKey "from"] mi_invalid_type])
  end.

(** [ParsedEmailSchema.parse(parsed)]: [inl] issues or [inr] the email;
    unknown keys are stripped. *)
Definition ParsedEmailSchema_parse (v : mval) : list MimeIssue + ParsedEmail :=
  match v with
  | MObj fs =>
      let '(m, i1) := m_string [] "messageId" (mget fs "messageId") in
      let '(s, i2) := m_string [] "subject" (mget fs "subject") in
      let '(f, i3) := parse_from (mget fs "from") in
      let '(t, i4) := m_opt_string [] "text" (mget fs "text") in
      let '(h, i5) := m_opt_string [] "html" (mget fs "html") in
      let '(a, i6) := parse_attachments (mget fs "attachments") in
      match m, s, f, t, h, a with
      | Some m, Some s, Some f, Some t, Some h, Some a => inr (mkParsedEmail m s f t h a)
      | _, _, _, _, _, _ => inl (i1 ++ i2 ++ i3 ++ i4 ++ i5 ++ i6)%list
      end
  | _ => inl [mkMimeIssue [] mi_invalid_type]
  end.

(** Step 1's callback: [postal] is [PostalMime.parse] ([None] when it
    throws), followed by [ParsedEmailSchema.parse]. *)
Definition parse_email_of (postal : bytes -> option mval) (raw : bytes)
  : option ParsedEmail :=
  match postal raw with
  | Some v => match ParsedEmailSchema_parse v with inr e => Some e | inl _ => None end
  | None => None
  end.

(* ------------------------------------------------------------------ *)
(** ** The earlier email handler (src/unnamed/part_000) *)

(** Its loop over the attachments has no [break]: every PDF overwrites
    [contentForAi]; [None] when unpdf throws. *)
Fixpoint legacy_loop (pdf_text : bytes -> option string) (env : Env)
    (acc : string) (atts : list Attachment) : option string :=
  match atts with
  | [] => Some acc
  | a :: r =>
      if String.eqb (mimeType a) "application/pdf" then
        match pdf_text (content a) with
        | Some t => legacy_loop pdf_text env (redact_first env t) r
        | None => None
        end
      else legacy_loop pdf_text env acc r
  end.

(** The [contentForAi] the handler logs. *)
Definition legacy_email_content (pdf_text : bytes -> option string) (env : Env)
    (atts : list Attachment) : option string :=
  if negb (Nat.eqb (length atts) 0) then legacy_loop pdf_text env "" atts else Some "".

(** The last attachment whose [mimeType] is [application/pdf]. *)
Fixpoint last_pdf (atts : list Attachment) : option Attachment :=
  match atts with
  | [] => None
  | a :: r =>
      match last_pdf r with
      | Some b => Some b
      | None => if String.eqb (mimeType a) "application/pdf" then Some a else None
      end
  end.

(** A run only appends to the ledger and to the expenses, and leaves the
    categories alone. *)
Definition keeps_history (a b : Store) : Prop :=
  (exists extra, ledger_ids b = (ledger_ids a ++ extra)%list) /\
  categories b = categories a /\
  (forall r, In r (expenses a) -> In r (expenses b)).

(** The SQLite date format [YYYY-MM-DD]. *)
Definition iso_date_re : list ReClass :=
  [Digit; Digit; Digit; Digit; Lit "-"%char; Digit; Digit; Lit "-"%char;
   Digit; Digit].

(** All four PII literals are configured (non-empty). *)
Definition env_configured (env : Env) : bool :=
  JsString.truthy (YOUR_NAME env) && JsString.truthy (YOUR_EMAIL env) &&
  JsString.truthy (YOUR_ADDRESS env) && JsString.truthy (YOUR_POSTAL_CODE env).

(* ------------------------------------------------------------------ *)
(** ** Integrity of the D1 store *)

(** The constraints of src/schema.sql on the modelled columns, and the
    AUTOINCREMENT counters bounding the ids in use. *)
Definition wf_store (st : Store) : Prop :=
  (0 <= seq_ledger st)%Z /\ (0 <= seq_expense st)%Z /\
  NoDup (ledger_ids st) /\
  NoDup (map le_id (ledger st)) /\
  Forall (fun z => (0 < z <= seq_ledger st)%Z) (map le_id (ledger st)) /\
  NoDup (map ex_id (expenses st)) /\
  Forall (fun z => (0 < z <= seq_expense st)%Z) (map ex_id (expenses st)) /\
  Forall (fun x => In (ex_email_id x) (map le_id (ledger st)) /\
                   (0 < ex_amount x)%Z /\ String.length (ex_currency x) = 3)
         (expenses st).

(* ------------------------------------------------------------------ *)
(** ** Concrete inputs *)

Definition sample_env : Env :=
  mkEnv "Jane Doe" "jane@example.com" "1 Main St" "12345".

Definition body_email : ParsedEmail :=
  mkParsedEmail "<m1@example.com>" "Invoice" (Some "billing@acme.com")
    (Some "Invoice from Acme $42 USD") None [].

Definition pdf_email : ParsedEmail :=
  mkParsedEmail "<m2@example.com>" "Receipt" (Some "billing@acme.com") None None
    [mkAttachment "receipt.pdf" "application/pdf" []].

Definition logo_email : ParsedEmail :=
  mkParsedEmail "<m3@example.com>" "Invoice" (Some "billing@acme.com")
    (Some "Invoice from Acme $42 USD") None
    [mkAttachment "logo.png" "image/png" []].

Definition parse_as (e : ParsedEmail) : bytes -> option ParsedEmail := fun _ => Some e.

Definition sample_pdf : bytes -> option string :=
  fun _ => Some "Receipt for Jane Doe. Card holder: Jane Doe".

Definition response_of (fs : list (string * json)) : Prompt -> nat -> option json :=
  fun _ _ => Some (JObj fs).

Definition good_fields : list (string * json) :=
  [("vendor", JStr "Acme"); ("expenseDate", JStr "05-03-2025");
   ("amountValue", JNum 42); ("currencyCode", JStr "usd");
   ("category", JStr "Software"); ("description", JStr "Subscription")].

Definition no_currency_fields : list (string * json) :=
  [("vendor", JStr "Acme"); ("expenseDate", JStr "05-03-2025");
   ("amountValue", JNum 42); ("category", JStr "Software");
   ("description", JStr "Subscription")].

Definition groceries_fields : list (string * json) :=
  [("vendor", JStr "Acme"); ("expenseDate", JStr "05-03-2025");
   ("amountValue", JNum 42); ("currencyCode", JStr "usd");
   ("category", JStr "Groceries"); ("description", JStr "Weekly shop")].

Definition no_description_fields : list (string * json) :=
  [("vendor", JStr "Acme"); ("expenseDate", JStr "05-03-2025");
   ("amountValue", JNum 42); ("currencyCode", JStr "usd");
   ("category", JStr "Software")].

Definition sample_fields : ExpenseFields :=
  mkExpense "Acme" "05-03-2025" 42 "USD" "Software" (Some "Subscription").


(** A model binding whose first call throws. *)
Definition flaky_ai : Prompt -> nat -> option json :=
  fun _ k => match k with O => None | S _ => Some (JObj good_fields) end.

(** Two PDF attachments: an invoice, then a receipt. *)
Definition two_pdf_atts : list Attachment :=
  [mkAttachment "invoice.pdf" "application/pdf" [Byte.x01];
   mkAttachment "logo.png" "image/png" [];
   mkAttachment "receipt.pdf" "application/pdf" [Byte.x02]].

Definition two_pdf_email : ParsedEmail :=
  mkParsedEmail "<m4@example.com>" "Invoice and receipt" (Some "billing@acme.com")
    None None two_pdf_atts.

Definition two_pdf_text : bytes -> option string :=
  fun b => match b with
           | [Byte.x01] => Some "Invoice for Jane Doe"
           | _ => Some "Receipt for Jane Doe"
           end.

(** PostalMime results: a [From] header with a display name but no
    address and no [attachments] key; and one without [subject]. *)
Definition postal_named_from : mval :=
  MObj [("messageId", MStr "<m6@example.com>"); ("subject", MStr "Invoice");
        ("from", MObj [("name", MStr "Acme Billing")]);
        ("text", MStr "Invoice from Acme $42 USD"); ("headers", MArr [])].

Definition postal_no_subject : mval :=
  MObj [("messageId", MStr "<m7@example.com>");
        ("from", MObj [("address", MStr "billing@acme.com")]);
        ("text", MStr "Invoice from Acme $42 USD")].

(** An attachment delivered as a string instead of an [ArrayBuffer]. *)
Definition postal_string_attachment : mval :=
  MObj [("messageId", MStr "<m8@example.com>"); ("subject", MStr "Receipt");
        ("from", MObj [("address", MStr "billing@acme.com")]);
        ("attachments",
         MArr [MObj [("filename", MStr "receipt.pdf");
                     ("mimeType", MStr "application/pdf");
                     ("content", MStr "JVBERi0xLjQK")]])].

Definition postal_of (v : mval) : bytes -> option mval := fun _ => Some v.

Definition html_email : ParsedEmail :=
  mkParsedEmail "<m5@example.com>" "Invoice" (Some "billing@acme.com")
    (Some "") (Some "<p>Total 42 USD, Jane Doe</p>") [].

(* ================================================================== *)
(** * Lemmas *)

(** ** Retries *)

Section StepLemmas.

Context {A : Type} (body : StepBody A).

(** A property of the store kept by every attempt is kept by [step.do]. *)
Lemma step_go_rel (R : Store -> Store -> Prop)
    (R_refl : forall st, R st st)
    (R_trans : forall a b c, R a b -> R b c -> R a c)
    (Hbody : forall k st, R st (snd (body k st))) :
  forall l a st, R st (snd (fst (step_go l a body st))).
Proof.
  induction l as [|l IH]; intros a st; simpl;
    specialize (Hbody a st); destruct (body a st) as [[x|e] st'] eqn:E;
    simpl in *; auto.
  eapply R_trans; [exact Hbody | apply IH].
Qed.

(** When a failing attempt leaves the store as it was, the outcome of
    [step.do] is the outcome of a single attempt on the initial store. *)
Lemma step_go_single
    (Hpure : forall k st e st', body k st = (Throw e, st') -> st' = st) :
  forall l a st r st' n, step_go l a body st = (r, st', n) ->
  exists k, body k st = (r, st').
Proof.
  induction l as [|l IH]; intros a st r st' n H; simpl in H;
    destruct (body a st) as [[x|e] s1] eqn:E; inversion H; subst; eauto.
  pose proof (Hpure _ _ _ _ E) as ->.
  eapply IH; eauto.
Qed.

End StepLemmas.

Lemma step_do_rel {A} (body : StepBody A) (R : Store -> Store -> Prop) :
  (forall st, R st st) -> (forall a b c, R a b -> R b c -> R a c) ->
  (forall k st, R st (snd (body k st))) ->
  forall st r st' n, step_do defaultConfig body st = (r, st', n) -> R st st'.
Proof.
  intros Hr Ht Hb st r st' n H.
  pose proof (step_go_rel body R Hr Ht Hb (retries_limit defaultConfig) 0 st) as G.
  unfold step_do in H. rewrite H in G. exact G.
Qed.

Lemma step_do_single {A} (body : StepBody A) :
  (forall k st e st', body k st = (Throw e, st') -> st' = st) ->
  forall st r st' n, step_do defaultConfig body st = (r, st', n) ->
  exists k, body k st = (r, st').
Proof. intros Hp st r st' n H. eapply step_go_single; eauto. Qed.

(** ** Store effects of each step *)

Lemma record_body_pure (e : ParsedEmail) :
  forall k st err st', record_body e k st = (Throw err, st') -> st' = st.
Proof.
  intros k st err st' H; unfold record_body in H.
  destruct (insert_processed_email _ _ _ _ _) as [k'|[res s]];
    inversion H; reflexivity.
Qed.

Lemma insert_body_pure r4 rec :
  forall k st err st', insert_body r4 rec k st = (Throw err, st') -> st' = st.
Proof.
  intros k st err st' H; unfold insert_body in H.
  destruct r4 as [f|e']; [|inversion H; reflexivity].
  destruct (emailRecordId rec) as [id|]; [|inversion H; reflexivity].
  destruct (Z.eqb id 0); [inversion H; reflexivity|].
  destruct (insert_expense _ _ _ _ _ _ _ _) as [k'|[res s]];
    inversion H; reflexivity.
Qed.

Lemma parse_body_id pe raw : forall k st, snd (parse_body pe raw k st) = st.
Proof. intros k st; unfold parse_body; destruct (pe raw); reflexivity. Qed.

Lemma extract_body_id pt env e : forall k st, snd (extract_body pt env e k st) = st.
Proof. intros k st; unfold extract_body; destruct (extract_text pt env e); reflexivity. Qed.

Lemma ai_body_id ai r3 : forall k st, snd (ai_body ai r3 k st) = st.
Proof.
  intros k st; unfold ai_body; destruct r3 as [c|e]; [|reflexivity].
  destruct (ai _ k) as [j|]; [|reflexivity].
  destruct (ExpenseSchema_parse j); reflexivity.
Qed.

(** Finalize changes nothing but status and [processed_at] of ledger rows. *)
Lemma finalize_body_effect rec :
  forall k st, let st' := snd (finalize_body rec k st) in
  expenses st' = expenses st /\ ledger_ids st' = ledger_ids st.
Proof.
  intros k st; unfold finalize_body.
  destruct (emailRecordId rec) as [id|]; [|simpl; auto].
  destruct (Z.eqb id 0); [simpl; auto|].
  unfold update_status, ledger_ids; simpl; split; [reflexivity|].
  rewrite map_map. apply map_ext. intros r; unfold set_status_row.
  destruct (Z.eqb (le_id r) id); reflexivity.
Qed.

Lemma record_body_expenses e :
  forall k st, expenses (snd (record_body e k st)) = expenses st.
Proof.
  intros k st; unfold record_body, insert_processed_email.
  destruct (from_address e); [|reflexivity].
  destruct (existsb _ _); reflexivity.
Qed.

(** One attempt of step 5 appends at most one [expenses] row, with
    [is_reimbursable = 0], and leaves [processed_emails] alone. *)
Lemma insert_body_growth r4 rec :
  forall k st, exists extra,
    expenses (snd (insert_body r4 rec k st)) = (expenses st ++ extra)%list /\
    length extra <= 1 /\
    Forall (fun r => ex_is_reimbursable r = 0%Z) extra /\
    ledger (snd (insert_body r4 rec k st)) = ledger st.
Proof.
  intros k st; unfold insert_body.
  assert (Hnil : exists extra, expenses st = (expenses st ++ extra)%list /\
            length extra <= 1 /\ Forall (fun r => ex_is_reimbursable r = 0%Z) extra /\
            ledger st = ledger st)
    by (exists []; rewrite app_nil_r; auto).
  destruct r4 as [f|e']; [|exact Hnil].
  destruct (emailRecordId rec) as [id|]; [|exact Hnil].
  destruct (Z.eqb id 0); [exact Hnil|].
  unfold insert_expense.
  destruct (description f) as [d|]; [|exact Hnil].
  repeat match goal with
         | |- context [if ?b then _ else _] => destruct b; [exact Hnil|]
         end.
  simpl. eexists; split; [reflexivity|]. split; [simpl; lia|].
  split; [repeat constructor|reflexivity].
Qed.

Lemma existsb_message_count (m : string) (l : list LedgerRow) :
  existsb (fun r => String.eqb (le_message_id r) m) l =
  negb (Nat.eqb (length (filter (fun x => String.eqb x m) (map le_message_id l))) 0).
Proof.
  induction l as [|r l IH]; simpl; [reflexivity|].
  destruct (String.eqb (le_message_id r) m); simpl; auto.
Qed.

Lemma count_message_app (m : string) (l : list string) :
  length (filter (fun x => String.eqb x m) (l ++ [m])%list) =
  S (length (filter (fun x => String.eqb x m) l)).
Proof.
  rewrite filter_app, length_app; simpl. rewrite String.eqb_refl; simpl. lia.
Qed.

(** ** Whole runs *)

Section RunLemmas.

Variable pe : bytes -> option ParsedEmail.
Variable pt : bytes -> option string.
Variable env : Env.
Variable ai : Prompt -> nat -> option json.

(** A preorder on stores kept by every attempt of steps 2, 5 and 6 is
    kept by a whole run. *)
Lemma run_rel (R : Store -> Store -> Prop) :
  (forall st, R st st) -> (forall a b c, R a b -> R b c -> R a c) ->
  (forall e k st, R st (snd (record_body e k st))) ->
  (forall r4 rec k st, R st (snd (insert_body r4 rec k st))) ->
  (forall rec k st, R st (snd (finalize_body rec k st))) ->
  forall raw st, R st (snd (run pe pt env ai raw st)).
Proof.
  intros Hr Ht H2 H5 H6 raw st; unfold run.
  destruct (step_do _ (parse_body pe raw) st) as [[r1 st1] n1] eqn:E1.
  assert (R st st1) by (eapply (step_do_rel _ R Hr Ht); [|exact E1];
    intros k s; rewrite parse_body_id; apply Hr).
  destruct r1 as [email|e1]; [|assumption].
  destruct (step_do _ (record_body email) st1) as [[r2 st2] n2] eqn:E2.
  assert (R st1 st2) by (eapply (step_do_rel _ R Hr Ht); [apply H2|exact E2]).
  destruct r2 as [rec|e2]; [|simpl; eauto].
  destruct (step_do _ (extract_body pt env email) st2) as [[r3 st3] n3] eqn:E3.
  assert (R st2 st3) by (eapply (step_do_rel _ R Hr Ht); [|exact E3];
    intros k s; rewrite extract_body_id; apply Hr).
  destruct (step_do _ (ai_body ai r3) st3) as [[r4 st4] n4] eqn:E4.
  assert (R st3 st4) by (eapply (step_do_rel _ R Hr Ht); [|exact E4];
    intros k s; rewrite ai_body_id; apply Hr).
  destruct (step_do _ (insert_body r4 rec) st4) as [[r5 st5] n5] eqn:E5.
  assert (R st4 st5) by (eapply (step_do_rel _ R Hr Ht); [apply H5|exact E5]).
  destruct r5 as [x5|e5]; [|simpl; eauto 6].
  destruct (step_do _ (finalize_body rec) st5) as [[r6 st6] n6] eqn:E6.
  assert (R st5 st6) by (eapply (step_do_rel _ R Hr Ht); [apply H6|exact E6]).
  destruct r6; simpl; eauto 7.
Qed.

End RunLemmas.

Section RunExpenses.

Variable pe : bytes -> option ParsedEmail.
Variable pt : bytes -> option string.
Variable env : Env.
Variable ai : Prompt -> nat -> option json.

Ltac same_exp E :=
  eapply (step_do_rel _ same_expenses); [unfold same_expenses; reflexivity
    | unfold same_expenses; intros ? ? ? -> ->; reflexivity | | exact E].

(** A run appends at most one [expenses] row, and that row is not
    reimbursable. *)
Lemma run_expenses_growth raw st :
  exists extra,
    expenses (snd (run pe pt env ai raw st)) = (expenses st ++ extra)%list /\
    length extra <= 1 /\
    Forall (fun r => ex_is_reimbursable r = 0%Z) extra.
Proof.
  assert (Hnil : forall s, expenses s = expenses st -> exists extra,
            expenses s = (expenses st ++ extra)%list /\ length extra <= 1 /\
            Forall (fun r => ex_is_reimbursable r = 0%Z) extra)
    by (intros s ->; exists []; rewrite app_nil_r; auto).
  unfold run.
  destruct (step_do _ (parse_body pe raw) st) as [[r1 st1] n1] eqn:E1.
  assert (X1 : same_expenses st st1)
    by (same_exp E1; intros k s; rewrite parse_body_id; reflexivity).
  unfold same_expenses in X1.
  destruct r1 as [email|e1]; [|apply Hnil; exact X1].
  destruct (step_do _ (record_body email) st1) as [[r2 st2] n2] eqn:E2.
  assert (X2 : same_expenses st1 st2)
    by (same_exp E2; intros k s; apply record_body_expenses).
  unfold same_expenses in X2.
  destruct r2 as [rec|e2]; [|apply Hnil; simpl; congruence].
  destruct (step_do _ (extract_body pt env email) st2) as [[r3 st3] n3] eqn:E3.
  assert (X3 : same_expenses st2 st3)
    by (same_exp E3; intros k s; rewrite extract_body_id; reflexivity).
  destruct (step_do _ (ai_body ai r3) st3) as [[r4 st4] n4] eqn:E4.
  assert (X4 : same_expenses st3 st4)
    by (same_exp E4; intros k s; rewrite ai_body_id; reflexivity).
  unfold same_expenses in X3, X4.
  destruct (step_do _ (insert_body r4 rec) st4) as [[r5 st5] n5] eqn:E5.
  destruct (step_do_single _ (insert_body_pure r4 rec) _ _ _ _ E5) as [k5 K5].
  destruct (insert_body_growth r4 rec k5 st4) as [extra [G1 [G2 [G3 _]]]].
  rewrite K5 in G1; simpl in G1.
  assert (X5 : expenses st5 = (expenses st ++ extra)%list) by congruence.
  destruct r5 as [x5|e5]; [|exists extra; simpl; auto].
  destruct (step_do _ (finalize_body rec) st5) as [[r6 st6] n6] eqn:E6.
  assert (X6 : same_expenses st5 st6)
    by (same_exp E6; intros k s; exact (proj1 (finalize_body_effect rec k s))).
  unfold same_expenses in X6.
  exists extra; destruct r6; simpl; rewrite ?X6; auto.
Qed.

(** Steps 1 and 2 of a run on a fresh, well-formed email. *)
Lemma run_first_steps raw st e a :
  pe raw = Some e -> from_address e = Some a ->
  count_message (messageId e) st = 0 ->
  ledger_ids (snd (run pe pt env ai raw st)) = (ledger_ids st ++ [messageId e])%list.
Proof.
  intros Hp Hf Hc.
  assert (Hx : existsb (fun r => String.eqb (le_message_id r) (messageId e)) (ledger st) = false)
    by (rewrite existsb_message_count; unfold count_message, ledger_ids in Hc;
        rewrite Hc; reflexivity).
  set (row := mkLedgerRow (seq_ledger st + 1) (messageId e) (subject e) a
                (now st) (now st) pending 0).
  set (st' := mkStore (ledger st ++ [row]) (expenses st) (categories st)
                (seq_ledger st + 1) (seq_expense st) (now st)).
  assert (E1 : step_do defaultConfig (parse_body pe raw) st = (Ok e, st, 1))
    by (unfold step_do, parse_body; simpl; rewrite Hp; reflexivity).
  assert (E2 : step_do defaultConfig (record_body e) st =
               (Ok (mkInitialRecord (Some (seq_ledger st + 1)%Z) true), st', 1))
    by (unfold step_do, record_body, insert_processed_email; simpl;
        rewrite Hf, Hx; reflexivity).
  set (R := fun s1 s2 : Store => ledger_ids s2 = ledger_ids s1).
  assert (HR : R st' (snd (run pe pt env ai raw st))).
  { unfold run; rewrite E1, E2.
    set (rec := mkInitialRecord (Some (seq_ledger st + 1)%Z) true).
    destruct (step_do _ (extract_body pt env e) st') as [[r3 st3] n3] eqn:E3.
    assert (R st' st3) by (eapply (step_do_rel (extract_body pt env e) R); [unfold R; reflexivity
      | unfold R; intros ? ? ? -> ->; reflexivity
      | intros k s; rewrite extract_body_id; reflexivity | exact E3]).
    destruct (step_do _ (ai_body ai r3) st3) as [[r4 st4] n4] eqn:E4.
    assert (R st3 st4) by (eapply (step_do_rel (ai_body ai r3) R); [unfold R; reflexivity
      | unfold R; intros ? ? ? -> ->; reflexivity
      | intros k s; rewrite ai_body_id; reflexivity | exact E4]).
    destruct (step_do _ (insert_body r4 rec) st4) as [[r5 st5] n5] eqn:E5.
    assert (R st4 st5) by (eapply (step_do_rel (insert_body r4 rec) R); [unfold R; reflexivity
      | unfold R; intros ? ? ? -> ->; reflexivity
      | | exact E5];
      intros k s; destruct (insert_body_growth r4 rec k s) as [? [_ [_ [_ L]]]];
      unfold R, ledger_ids; rewrite L; reflexivity).
    unfold R in *.
    destruct r5 as [x5|e5]; [|simpl; congruence].
    destruct (step_do _ (finalize_body rec) st5) as [[r6 st6] n6] eqn:E6.
    assert (R st5 st6) by (eapply (step_do_rel (finalize_body rec) R); [unfold R; reflexivity
      | unfold R; intros ? ? ? -> ->; reflexivity
      | intros k s; exact (proj2 (finalize_body_effect rec k s)) | exact E6]).
    unfold R in *.
    destruct r6; simpl; congruence. }
  unfold R in HR; rewrite HR. unfold st', ledger_ids; simpl.
  rewrite map_app; reflexivity.
Qed.

(** A run whose email is already recorded stops at step 2 and leaves the
    store unchanged. *)
Lemma run_duplicate raw st e a :
  pe raw = Some e -> from_address e = Some a ->
  count_message (messageId e) st <> 0 ->
  run pe pt env ai raw st =
    (Failed "recordInitialEmailProcessing" (DbError UniqueViolation), st).
Proof.
  intros Hp Hf Hc.
  assert (Hx : existsb (fun r => String.eqb (le_message_id r) (messageId e)) (ledger st) = true).
  { rewrite existsb_message_count. unfold count_message, ledger_ids in Hc.
    destruct (Nat.eqb_spec (length (filter (fun x => String.eqb x (messageId e))
                                        (map le_message_id (ledger st)))) 0);
      [contradiction|reflexivity]. }
  unfold run, step_do, parse_body, record_body, insert_processed_email; simpl.
  rewrite Hp; simpl. rewrite Hf, Hx; simpl; rewrite Hx. reflexivity.
Qed.

End RunExpenses.

Lemma finalize_step_ok rec st :
  exists res, step_do defaultConfig (finalize_body rec) st =
              (Ok res, snd (finalize_body rec 0 st), 1).
Proof.
  unfold step_do, finalize_body; simpl.
  destruct (emailRecordId rec) as [id|]; [|eexists; reflexivity].
  destruct (Z.eqb id 0); [eexists; reflexivity|].
  simpl; eexists; reflexivity.
Qed.

(** ** Validation lemmas *)

Lemma obj_get_app_last fs k k' v :
  obj_get (fs ++ [(k', v)])%list k =
  if String.eqb k' k then Some v else obj_get fs k.
Proof.
  unfold obj_get. rewrite rev_app_distr. simpl.
  destruct (String.eqb k' k); reflexivity.
Qed.

(** A response without [currencyCode] fails with an issue on that path. *)
Lemma parse_missing_currency fs :
  obj_get fs "currencyCode" = None ->
  exists issues, ExpenseSchema_parse (JObj fs) = inl issues /\
                 In ["currencyCode"] (issue_keys issues).
Proof.
  intros H. unfold ExpenseSchema_parse. rewrite H.
  unfold z_currency, z_string at 2.
  destruct (z_string "vendor" _) as [v i1].
  destruct (z_date "expenseDate" _) as [d i2].
  destruct (z_number "amountValue" _) as [a i3].
  destruct (z_string "category" _) as [k i5].
  destruct (z_opt_string "description" _) as [o i6].
  eexists; split;
    [destruct v, d, a, k, o; reflexivity|].
  unfold issue_keys. rewrite !map_app. simpl.
  apply in_or_app; right. apply in_or_app; right. apply in_or_app; right.
  simpl; auto.
Qed.

(** ** Step 2 on a fresh message *)

Lemma record_step_fresh st e a :
  from_address e = Some a -> count_message (messageId e) st = 0 ->
  step_do defaultConfig (record_body e) st =
    (Ok (mkInitialRecord (Some (seq_ledger st + 1)%Z) true), recorded_store st e a, 1).
Proof.
  intros Hf Hc.
  assert (Hx : existsb (fun r => String.eqb (le_message_id r) (messageId e)) (ledger st) = false)
    by (rewrite existsb_message_count; unfold count_message, ledger_ids in Hc;
        rewrite Hc; reflexivity).
  unfold step_do, record_body, insert_processed_email; simpl.
  rewrite Hf, Hx; reflexivity.
Qed.

Lemma find_ledger_recorded st e a :
  count_message (messageId e) st = 0 ->
  option_map le_status (find_ledger (messageId e) (recorded_store st e a)) = Some pending.
Proof.
  unfold count_message, ledger_ids, find_ledger, recorded_store; simpl.
  induction (ledger st) as [|r l IH]; simpl; intros Hc.
  - rewrite String.eqb_refl; reflexivity.
  - destruct (String.eqb (le_message_id r) (messageId e)) eqn:E.
    + apply String.eqb_eq in E. rewrite E in Hc. simpl in Hc.
      rewrite ?String.eqb_refl in Hc. discriminate.
    + simpl in Hc. rewrite ?E in Hc. auto.
Qed.

(** ** Reimbursable flag *)

Lemma flags_from_refl st : flags_from st st.
Proof. split; intros r H; [right; exists r|left]; auto. Qed.

Lemma flags_from_trans a b c : flags_from a b -> flags_from b c -> flags_from a c.
Proof.
  intros [La Ea] [Lb Eb]; split.
  - intros r H. destruct (Lb r H) as [Z0|[r1 [I1 [D1 F1]]]]; [auto|].
    destruct (La r1 I1) as [Z1|[r0 [I0 [D0 F0]]]].
    + left; congruence.
    + right; exists r0; repeat split; congruence.
  - intros r H. destruct (Eb r H) as [I|Z0]; auto.
Qed.

Lemma record_body_flags e : forall k st, flags_from st (snd (record_body e k st)).
Proof.
  intros k st; unfold record_body, insert_processed_email.
  destruct (from_address e) as [a|]; [|apply flags_from_refl].
  destruct (existsb _ _); [apply flags_from_refl|].
  split; simpl; [|auto].
  intros r H. apply in_app_or in H as [H|[<-|[]]].
  - right; exists r; auto.
  - left; reflexivity.
Qed.

Lemma insert_body_flags r4 rec : forall k st, flags_from st (snd (insert_body r4 rec k st)).
Proof.
  intros k st. destruct (insert_body_growth r4 rec k st) as [extra [G1 [_ [G3 G4]]]].
  split; rewrite ?G1, ?G4.
  - intros r H; right; exists r; auto.
  - intros r H. apply in_app_or in H as [H|H]; [auto|].
    right. rewrite Forall_forall in G3; auto.
Qed.

Lemma finalize_body_flags rec : forall k st, flags_from st (snd (finalize_body rec k st)).
Proof.
  intros k st; unfold finalize_body.
  destruct (emailRecordId rec) as [id|]; [|apply flags_from_refl].
  destruct (Z.eqb id 0); [apply flags_from_refl|].
  split; simpl; [|auto].
  intros r H. apply in_map_iff in H as [r0 [<- I]].
  right; exists r0; unfold set_status_row.
  destruct (Z.eqb (le_id r0) id); auto.
Qed.
(** ** Date reformatting *)

Lemma digit_not_dash c : is_digit c = true -> Ascii.eqb c "-"%char = false.
Proof.
  intros H; destruct (Ascii.eqb c "-"%char) eqn:E; [|reflexivity].
  apply Ascii.eqb_eq in E; subst; discriminate.
Qed.

Lemma split_digit c s : is_digit c = true ->
  JsString.split "-"%char (String c s) =
  match JsString.split "-"%char s with
  | p :: ps => String c p :: ps
  | [] => [String c EmptyString]
  end.
Proof. intros H; simpl; rewrite (digit_not_dash c H); reflexivity. Qed.

Lemma split_empty : JsString.split "-"%char EmptyString = [EmptyString].
Proof. reflexivity. Qed.

Lemma split_dash s :
  JsString.split "-"%char (String "-"%char s) = EmptyString :: JsString.split "-"%char s.
Proof. reflexivity. Qed.

Lemma date_re_shape d : re_full date_re d = true ->
  exists c1 c2 c4 c5 c7 c8 c9 c10,
    Forall (fun c => is_digit c = true) [c1; c2; c4; c5; c7; c8; c9; c10] /\
    d = String c1 (String c2 (String "-" (String c4 (String c5 (String "-"
          (String c7 (String c8 (String c9 (String c10 EmptyString))))))))).
Proof.
  intros H.
  destruct d as [|c1 [|c2 [|c3 [|c4 [|c5 [|c6 [|c7 [|c8 [|c9 [|c10 [|c11 r]]]]]]]]]]];
    cbn [re_full date_re class_ok] in H;
    repeat match goal with
           | H : _ && _ = true |- _ => apply andb_prop in H; destruct H
           end; try discriminate.
  repeat match goal with
         | H : Ascii.eqb _ _ = true |- _ => apply Ascii.eqb_eq in H; subst
         end.
  exists c1, c2, c4, c5, c7, c8, c9, c10; split; [repeat constructor; assumption|reflexivity].
Qed.


(* ================================================================== *)
(** * Claims *)

(** C1 (counterexample): a second delivery of the same message does not
    look up the existing ledger id and continue: its
    recordInitialEmailProcessing step fails on the UNIQUE constraint and
    the run aborts there. *)
Lemma C1_second_delivery_aborts :
  fst (run (parse_as body_email) sample_pdf sample_env (response_of good_fields) []
        (snd (run (parse_as body_email) sample_pdf sample_env (response_of good_fields) []
               (seed_store 0)))) =
  Failed "recordInitialEmailProcessing" (DbError UniqueViolation).
Proof. vm_compute. reflexivity. Qed.

(** C1 (amended): for a valid email whose messageId is not yet recorded,
    running the pipeline twice leaves exactly one processed_emails row for
    that messageId and at most one new expenses row; the second run fails
    at recordInitialEmailProcessing with the uniqueness violation (after
    its retry) and changes nothing. *)
Theorem C1_duplicate_delivery pe pt env ai raw st0 e a :
  pe raw = Some e -> from_address e = Some a ->
  count_message (messageId e) st0 = 0 ->
  run pe pt env ai raw (snd (run pe pt env ai raw st0)) =
    (Failed "recordInitialEmailProcessing" (DbError UniqueViolation),
     snd (run pe pt env ai raw st0)) /\
  count_message (messageId e) (snd (run pe pt env ai raw st0)) = 1 /\
  length (expenses (snd (run pe pt env ai raw st0))) <= S (length (expenses st0)).
Proof.
  intros Hp Hf Hc.
  assert (Hcount : count_message (messageId e) (snd (run pe pt env ai raw st0)) = 1).
  { unfold count_message.
    rewrite (run_first_steps pe pt env ai raw st0 e a Hp Hf Hc), count_message_app.
    unfold count_message in Hc; rewrite Hc; reflexivity. }
  split; [|split; [exact Hcount|]].
  - apply (run_duplicate pe pt env ai raw _ e a Hp Hf). rewrite Hcount; discriminate.
  - destruct (run_expenses_growth pe pt env ai raw st0) as [extra [G1 [G2 _]]].
    rewrite G1, length_app. lia.
Qed.

Lemma C1_duplicate_delivery_witness :
  let run1 := run (parse_as body_email) sample_pdf sample_env (response_of good_fields) [] in
  run1 (snd (run1 (seed_store 0))) =
    (Failed "recordInitialEmailProcessing" (DbError UniqueViolation),
     snd (run1 (seed_store 0))) /\
  count_message (messageId body_email) (snd (run1 (seed_store 0))) = 1 /\
  length (expenses (snd (run1 (seed_store 0)))) <= S (length (expenses (seed_store 0))).
Proof.
  intros run1.
  apply (C1_duplicate_delivery (parse_as body_email) sample_pdf sample_env
           (response_of good_fields) [] (seed_store 0) body_email "billing@acme.com");
    reflexivity.
Defined.

(** C2 (code_bug): on the PDF path the redaction uses [.replace], which
    replaces only the first occurrence: the configured payee name still
    occurs in the text embedded in the model prompt, while the body path's
    [.replaceAll] removes both occurrences of the same text. *)
Lemma C2_pdf_redaction_first_only :
  extract_text sample_pdf sample_env pdf_email =
    Some (mkExtracted "Receipt for Payee Name. Card holder: Jane Doe" Attachment_src) /\
  JsString.includes (YOUR_NAME sample_env)
    (prompt_content (build_prompt "Receipt for Payee Name. Card holder: Jane Doe")) = true /\
  redact_all sample_env "Receipt for Jane Doe. Card holder: Jane Doe" =
    "Receipt for Payee Name. Card holder: Payee Name".
Proof. split; [|split]; vm_compute; reflexivity. Qed.

(** C3 (code_bug): an email whose only attachment is not a PDF yields
    empty content with source [attachment]; its plain-text body is not
    used, whereas the same body without the attachment is. *)
Lemma C3_non_pdf_attachment_no_body_fallback :
  extract_text sample_pdf sample_env logo_email = Some (mkExtracted "" Attachment_src) /\
  extract_text sample_pdf sample_env body_email =
    Some (mkExtracted "Invoice from Acme $42 USD" Body_src).
Proof. split; vm_compute; reflexivity. Qed.

(** C4 (counterexample): with a model response missing currencyCode the
    run fails and inserts no expense, but the ledger entry keeps status
    [pending]; nothing sets it to [failed]. *)
Lemma C4_ledger_left_pending :
  let '(r, st) := run (parse_as body_email) sample_pdf sample_env
                      (response_of no_currency_fields) [] (seed_store 0) in
  r = Failed "insertExpenseRecord" (ZodError [mkIssue ["currencyCode"] invalid_type]) /\
  expenses st = [] /\
  option_map le_status (find_ledger "<m1@example.com>" st) = Some pending.
Proof. vm_compute. split; [|split]; reflexivity. Qed.

(** C4 (amended): when every model response lacks currencyCode,
    validation fails with a Zod error whose issues name [currencyCode],
    the run fails (at insertExpenseRecord, where the rejected step-4
    promise is awaited), no expenses row is inserted, and the ledger entry
    created by step 2 stays [pending]. *)
Theorem C4_missing_currency_run_fails pe pt env ai raw st e a c :
  pe raw = Some e -> from_address e = Some a ->
  count_message (messageId e) st = 0 ->
  extract_text pt env e = Some c ->
  (forall p k, exists fs, ai p k = Some (JObj fs) /\ obj_get fs "currencyCode" = None) ->
  exists issues,
    run pe pt env ai raw st =
      (Failed "insertExpenseRecord" (ZodError issues), recorded_store st e a) /\
    In ["currencyCode"] (issue_keys issues) /\
    expenses (recorded_store st e a) = expenses st /\
    option_map le_status (find_ledger (messageId e) (recorded_store st e a)) = Some pending.
Proof.
  intros Hp Hf Hc Hx Hai.
  destruct (Hai (build_prompt (contentForAi c)) 0) as [fs0 [A0 C0]].
  destruct (parse_missing_currency fs0 C0) as [is0 [P0 _]].
  destruct (Hai (build_prompt (contentForAi c)) 1) as [fs1 [A1 C1]].
  destruct (parse_missing_currency fs1 C1) as [is1 [P1 K1]].
  exists is1.
  set (st' := recorded_store st e a).
  set (rec := mkInitialRecord (Some (seq_ledger st + 1)%Z) true).
  assert (E1 : step_do defaultConfig (parse_body pe raw) st = (Ok e, st, 1))
    by (unfold step_do, parse_body; simpl; rewrite Hp; reflexivity).
  assert (E3 : step_do defaultConfig (extract_body pt env e) st' = (Ok c, st', 1))
    by (unfold step_do, extract_body; simpl; rewrite Hx; reflexivity).
  assert (E4 : step_do defaultConfig (ai_body ai (Ok c)) st' =
               (Throw (ZodError is1), st', 2))
    by (unfold step_do, ai_body; simpl; rewrite A0, P0; simpl; rewrite A1, P1;
        reflexivity).
  assert (E5 : step_do defaultConfig (insert_body (Throw (ZodError is1)) rec) st' =
               (Throw (ZodError is1), st', 2)) by reflexivity.
  unfold run. rewrite E1, (record_step_fresh st e a Hf Hc). fold st' rec.
  rewrite E3, E4, E5.
  split; [reflexivity|]. split; [exact K1|]. split; [reflexivity|].
  apply find_ledger_recorded; exact Hc.
Qed.

Lemma C4_missing_currency_run_fails_witness :
  exists issues,
    run (parse_as body_email) sample_pdf sample_env (response_of no_currency_fields) []
        (seed_store 0) =
      (Failed "insertExpenseRecord" (ZodError issues),
       recorded_store (seed_store 0) body_email "billing@acme.com") /\
    In ["currencyCode"] (issue_keys issues) /\
    expenses (recorded_store (seed_store 0) body_email "billing@acme.com") =
      expenses (seed_store 0) /\
    option_map le_status (find_ledger (messageId body_email)
      (recorded_store (seed_store 0) body_email "billing@acme.com")) = Some pending.
Proof.
  apply (C4_missing_currency_run_fails (parse_as body_email) sample_pdf sample_env
           (response_of no_currency_fields) [] (seed_store 0) body_email
           "billing@acme.com" (mkExtracted "Invoice from Acme $42 USD" Body_src));
    [reflexivity | reflexivity | reflexivity | vm_compute; reflexivity |].
  intros p k. exists no_currency_fields. split; reflexivity.
Defined.

(** C5 (counterexample): a response whose category is not one of the
    eight labels passes [ExpenseSchema] unchanged. *)
Lemma C5_unlisted_category_accepted :
  existsb (String.eqb "Groceries") validCategories = false /\
  ExpenseSchema_parse (JObj groceries_fields) =
    inr (mkExpense "Acme" "05-03-2025" 42 "USD" "Groceries" (Some "Weekly shop")).
Proof. split; vm_compute; reflexivity. Qed.

(** C5 (amended): the validator checks only that category is a string:
    whether a response passes does not depend on which string its
    category is, and the string is kept as given.  The eight labels reach
    the model only through the prompt and the response schema's enum. *)
Theorem C5_category_not_validated fs s1 s2 f :
  ExpenseSchema_parse (JObj (fs ++ [("category", JStr s1)])) = inr f ->
  category f = s1 /\
  ExpenseSchema_parse (JObj (fs ++ [("category", JStr s2)])) =
    inr (mkExpense (vendor f) (expenseDate f) (amountValue f) (currencyCode f) s2
                   (description f)) /\
  (forall c, prompt_categories (build_prompt c) = validCategories).
Proof.
  intros H. unfold ExpenseSchema_parse in *.
  rewrite !obj_get_app_last in *. cbn [String.eqb Ascii.eqb Bool.eqb] in *.
  destruct (z_string "vendor" (obj_get fs "vendor")) as [[v|] i1];
  destruct (z_date "expenseDate" (obj_get fs "expenseDate")) as [[d|] i2];
  destruct (z_number "amountValue" (obj_get fs "amountValue")) as [[am|] i3];
  destruct (z_currency "currencyCode" (obj_get fs "currencyCode")) as [[cu|] i4];
  destruct (z_opt_string "description" (obj_get fs "description")) as [[o|] i6];
  cbn [z_string] in H |- *; try discriminate H.
  injection H as <-. simpl. auto.
Qed.

Lemma C5_category_not_validated_witness :
  category (mkExpense "Acme" "05-03-2025" 42 "USD" "Software" (Some "Subscription")) =
    "Software" /\
  ExpenseSchema_parse (JObj (good_fields ++ [("category", JStr "Groceries")])) =
    inr (mkExpense "Acme" "05-03-2025" 42 "USD" "Groceries" (Some "Subscription")) /\
  (forall c, prompt_categories (build_prompt c) = validCategories).
Proof.
  apply (C5_category_not_validated good_fields "Software" "Groceries"
           (mkExpense "Acme" "05-03-2025" 42 "USD" "Software" (Some "Subscription"))).
  vm_compute; reflexivity.
Defined.

(** C6 (counterexample): a response without description passes
    validation with description absent (undefined), not the empty
    string. *)
Lemma C6_absent_description_undefined :
  ExpenseSchema_parse (JObj no_description_fields) =
    inr (mkExpense "Acme" "05-03-2025" 42 "USD" "Software" None).
Proof. vm_compute. reflexivity. Qed.

(** C6 (amended): the validated description is exactly the response's
    description: absent (undefined) when the key is absent, the given
    string otherwise, never defaulted to the empty string; a null
    description is rejected. *)
Theorem C6_description_not_defaulted :
  (forall fs f, ExpenseSchema_parse (JObj fs) = inr f ->
     (obj_get fs "description" = None <-> description f = None) /\
     (forall s, description f = Some s <-> obj_get fs "description" = Some (JStr s))) /\
  (forall fs, obj_get fs "description" = Some JNull ->
     exists issues, ExpenseSchema_parse (JObj fs) = inl issues).
Proof.
  split.
  - intros fs f H. unfold ExpenseSchema_parse in H.
    destruct (z_opt_string "description" (obj_get fs "description")) as [[o|] i6] eqn:Ed;
    destruct (z_string "vendor" (obj_get fs "vendor")) as [[v|] i1];
    destruct (z_date "expenseDate" (obj_get fs "expenseDate")) as [[d|] i2];
    destruct (z_number "amountValue" (obj_get fs "amountValue")) as [[am|] i3];
    destruct (z_currency "currencyCode" (obj_get fs "currencyCode")) as [[cu|] i4];
    destruct (z_string "category" (obj_get fs "category")) as [[k|] i5];
    try discriminate H.
    injection H as <-. simpl.
    destruct (obj_get fs "description") as [j|]; unfold z_opt_string in Ed.
    + destruct j; inversion Ed; subst.
      split; [split; discriminate|].
      intros s'; split; intros X; inversion X; reflexivity.
    + inversion Ed; subst.
      split; [tauto|]. intros s'; split; discriminate.
  - intros fs G. unfold ExpenseSchema_parse. rewrite G. cbn [z_opt_string].
    destruct (z_string "vendor" (obj_get fs "vendor")) as [[v|] i1];
    destruct (z_date "expenseDate" (obj_get fs "expenseDate")) as [[d|] i2];
    destruct (z_number "amountValue" (obj_get fs "amountValue")) as [[am|] i3];
    destruct (z_currency "currencyCode" (obj_get fs "currencyCode")) as [[cu|] i4];
    destruct (z_string "category" (obj_get fs "category")) as [[k|] i5];
    eexists; reflexivity.
Qed.

Lemma C6_description_not_defaulted_witness :
  (obj_get no_description_fields "description" = None <-> None = @None string) /\
  (exists issues, ExpenseSchema_parse (JObj (good_fields ++ [("description", JNull)])) =
                  inl issues).
Proof.
  split.
  - apply (proj1 C6_description_not_defaulted no_description_fields
             (mkExpense "Acme" "05-03-2025" 42 "USD" "Software" None)).
    vm_compute; reflexivity.
  - apply (proj2 C6_description_not_defaulted). vm_compute; reflexivity.
Defined.

(** C7: every expenseDate accepted by [/^\d{2}-\d{2}-\d{4}$/] survives
    the storage reformatting to YYYY-MM-DD and back unchanged. *)
Theorem C7_date_roundtrip d :
  re_full date_re d = true -> spec_display_date (format_expense_date d) = d.
Proof.
  intros H.
  destruct (date_re_shape d H) as (c1 & c2 & c4 & c5 & c7 & c8 & c9 & c10 & HF & ->).
  repeat match goal with
         | HF : Forall _ (_ :: _) |- _ => inversion HF; subst; clear HF
         end.
  unfold format_expense_date, spec_display_date.
  repeat first [ rewrite split_dash | rewrite split_empty
               | match goal with
                 | H : is_digit ?c = true |- context [JsString.split "-"%char (String ?c _)] =>
                     rewrite (split_digit c _ H)
                 end
               | progress cbn [nth_error JsString.interp append] ].
  reflexivity.
Qed.

Lemma C7_date_roundtrip_witness :
  spec_display_date (format_expense_date "05-03-2025") = "05-03-2025".
Proof. apply C7_date_roundtrip. vm_compute. reflexivity. Defined.

(** C8 (counterexample): with the ledger id missing, insertExpenseRecord
    is attempted twice: the thrown error is retried. *)
Lemma C8_missing_id_retried :
  step_do defaultConfig (insert_body (Ok sample_fields) (mkInitialRecord None true))
    (seed_store 0) =
  (Throw (PlainError "Failed to get emailRecordId for expense insertion."),
   seed_store 0, 2).
Proof. reflexivity. Qed.

(** C8 (amended): when the ledger id is missing ([undefined] or [0]),
    insertExpenseRecord throws an ordinary error, which the step retries
    like any other failure (defaultConfig: one retry, two attempts); it
    then fails with that error and inserts no expense row. *)
Theorem C8_missing_id_plain_error_retried f rec st :
  id_missing (emailRecordId rec) = true ->
  step_do defaultConfig (insert_body (Ok f) rec) st =
    (Throw (PlainError "Failed to get emailRecordId for expense insertion."), st,
     S (retries_limit defaultConfig)).
Proof.
  unfold id_missing, step_do, insert_body; simpl.
  destruct (emailRecordId rec) as [id|]; [|reflexivity].
  intros H; rewrite H; reflexivity.
Qed.

Lemma C8_missing_id_plain_error_retried_witness :
  step_do defaultConfig (insert_body (Ok sample_fields) (mkInitialRecord (Some 0%Z) true))
    (seed_store 0) =
  (Throw (PlainError "Failed to get emailRecordId for expense insertion."),
   seed_store 0, S (retries_limit defaultConfig)).
Proof. apply C8_missing_id_plain_error_retried. reflexivity. Defined.

(** C9: finalizeEmailProcessingStatus never throws.  With the ledger id
    missing it returns [{ success: false }] and changes nothing; with an
    id it sets that row's status to [processed] and [processed_at] to the
    current time; and no run ever fails at this step. *)
Theorem C9_finalize_best_effort :
  (forall rec st, id_missing (emailRecordId rec) = true ->
     step_do defaultConfig (finalize_body rec) st =
       (Ok (mkFinalizeResult false (Some "Missing emailRecordId") None), st, 1)) /\
  (forall rec st id, emailRecordId rec = Some id -> id <> 0%Z ->
     exists res,
       step_do defaultConfig (finalize_body rec) st =
         (Ok res, snd (update_status processed id st), 1) /\
       finalize_success res = true /\
       (forall r, In r (ledger (snd (update_status processed id st))) -> le_id r = id ->
          le_status r = processed /\ le_processed_at r = now st)) /\
  (forall pe pt env ai raw st e,
     fst (run pe pt env ai raw st) <> Failed "finalizeEmailProcessingStatus" e).
Proof.
  split; [|split].
  - intros rec st; unfold id_missing, step_do, finalize_body; simpl.
    destruct (emailRecordId rec) as [id|]; [|reflexivity].
    intros H; rewrite H; reflexivity.
  - intros rec st id Hid Hnz; unfold step_do, finalize_body; simpl.
    rewrite Hid. destruct (Z.eqb_spec id 0) as [E|_]; [contradiction|].
    simpl. eexists; split; [reflexivity|]. split; [reflexivity|].
    intros r Hr Hi. apply in_map_iff in Hr as [r0 [<- _]].
    unfold set_status_row in *.
    destruct (Z.eqb_spec (le_id r0) id); simpl in *; [auto|contradiction].
  - intros pe pt env ai raw st e; unfold run.
    destruct (step_do _ (parse_body pe raw) st) as [[[email|e1] st1] n1];
      [|simpl; intros X; inversion X].
    destruct (step_do _ (record_body email) st1) as [[[rec|e2] st2] n2];
      [|simpl; intros X; inversion X].
    destruct (step_do _ (extract_body pt env email) st2) as [[r3 st3] n3].
    destruct (step_do _ (ai_body ai r3) st3) as [[r4 st4] n4].
    destruct (step_do _ (insert_body r4 rec) st4) as [[[x5|e5] st5] n5];
      [|simpl; intros X; inversion X].
    destruct (finalize_step_ok rec st5) as [res ->].
    simpl; discriminate.
Qed.

Lemma C9_finalize_best_effort_witness :
  step_do defaultConfig (finalize_body (mkInitialRecord None true)) (seed_store 0) =
    (Ok (mkFinalizeResult false (Some "Missing emailRecordId") None), seed_store 0, 1) /\
  fst (run (parse_as body_email) sample_pdf sample_env (response_of good_fields) []
        (seed_store 0)) <> Failed "finalizeEmailProcessingStatus" (PlainError "") /\
  (exists res,
     step_do defaultConfig (finalize_body (mkInitialRecord (Some 1%Z) true))
       (recorded_store (seed_store 0) body_email "billing@acme.com") =
     (Ok res, snd (update_status processed 1
                    (recorded_store (seed_store 0) body_email "billing@acme.com")), 1) /\
     finalize_success res = true /\
     (forall r, In r (ledger (snd (update_status processed 1
                    (recorded_store (seed_store 0) body_email "billing@acme.com")))) ->
        le_id r = 1%Z -> le_status r = processed /\ le_processed_at r = 0%Z)).
Proof.
  destruct C9_finalize_best_effort as [P1 [P2 P3]].
  split; [apply P1; reflexivity|]. split; [apply P3|].
  apply (P2 (mkInitialRecord (Some 1%Z) true)); [reflexivity | discriminate].
Defined.

(** C10: the row a run inserts into processed_emails has
    [is_reimbursable = 0] and any later change keeps the flag; the expense
    row a run inserts takes the default [is_reimbursable = 0], so its
    generated status is [non_reimbursable]. *)
Theorem C10_no_reimbursable_rows pe pt env ai raw st :
  (exists extra,
     expenses (snd (run pe pt env ai raw st)) = (expenses st ++ extra)%list /\
     Forall (fun r => ex_is_reimbursable r = 0%Z /\ ex_status r = "non_reimbursable") extra) /\
  (forall r, In r (ledger (snd (run pe pt env ai raw st))) ->
     le_is_reimbursable r = 0%Z \/
     exists r0, In r0 (ledger st) /\ le_id r0 = le_id r /\
                le_is_reimbursable r0 = le_is_reimbursable r).
Proof.
  split.
  - destruct (run_expenses_growth pe pt env ai raw st) as [extra [G1 [_ G3]]].
    exists extra; split; [exact G1|].
    eapply Forall_impl; [|exact G3].
    intros r H; split; [exact H|]. unfold ex_status; rewrite H; reflexivity.
  - apply (run_rel pe pt env ai flags_from flags_from_refl flags_from_trans
             record_body_flags insert_body_flags finalize_body_flags).
Qed.

(* ================================================================== *)
(** * Further properties of the code *)

(** ** Redaction *)

Lemma replace_noop pat rep s :
  JsString.includes pat s = false -> JsString.replace pat rep s = s.
Proof.
  induction s as [|c s IH]; intros H; simpl in *;
    apply orb_false_iff in H as [H1 H2]; rewrite H1; [reflexivity|].
  rewrite IH; auto.
Qed.

Lemma replace_all_go_noop pat rep s :
  JsString.includes pat s = false -> JsString.replace_all_go pat rep 0 s = s.
Proof.
  induction s as [|c s IH]; intros H; simpl in *; [reflexivity|].
  apply orb_false_iff in H as [H1 H2]; rewrite H1, IH; auto.
Qed.

Lemma replace_all_noop pat rep s :
  JsString.includes pat s = false -> JsString.replace_all pat rep s = s.
Proof.
  intros H; destruct pat as [|c p].
  - destruct s; discriminate H.
  - apply replace_all_go_noop; exact H.
Qed.

Lemma replace_all_truthy pat rep s :
  JsString.truthy rep = true -> JsString.truthy s = true ->
  JsString.truthy (JsString.replace_all pat rep s) = true.
Proof.
  intros Hr Hs; destruct rep as [|r0 rep]; [discriminate|].
  destruct pat as [|p0 pat].
  - destruct s; reflexivity.
  - destruct s as [|c s]; [discriminate|].
    cbn [JsString.replace_all JsString.replace_all_go].
    destruct (prefix _ _); reflexivity.
Qed.

Lemma redact_all_truthy env s :
  JsString.truthy s = true -> JsString.truthy (redact_all env s) = true.
Proof.
  intros H; unfold redact_all.
  repeat (apply replace_all_truthy; [reflexivity|]); exact H.
Qed.

Lemma replace_all_empty pat rep :
  JsString.truthy pat = true -> JsString.replace_all pat rep "" = "".
Proof. destruct pat; [discriminate|reflexivity]. Qed.

Lemma redact_all_empty env :
  env_configured env = true -> redact_all env "" = "".
Proof.
  unfold env_configured; intros H.
  repeat (apply andb_prop in H as [H ?]).
  unfold redact_all. rewrite !replace_all_empty; auto.
Qed.

(** ** Choice of the content sent to the model *)

Lemma first_pdf_app pre a post :
  Forall (fun b => mimeType b <> "application/pdf") pre ->
  mimeType a = "application/pdf" ->
  first_pdf (pre ++ a :: post) = Some a.
Proof.
  intros Hpre Ha; induction Hpre as [|b pre Hb _ IH]; simpl.
  - rewrite Ha; reflexivity.
  - destruct (String.eqb_spec (mimeType b) "application/pdf"); [contradiction|exact IH].
Qed.

Lemma legacy_loop_no_pdf pt env acc atts :
  last_pdf atts = None -> legacy_loop pt env acc atts = Some acc.
Proof.
  induction atts as [|a r IH]; simpl; [reflexivity|].
  destruct (last_pdf r); [discriminate|].
  destruct (String.eqb (mimeType a) "application/pdf"); [discriminate|auto].
Qed.

Lemma legacy_loop_last pt env atts a t :
  last_pdf atts = Some a -> pt (content a) = Some t ->
  (forall b, In b atts -> mimeType b = "application/pdf" -> pt (content b) <> None) ->
  forall acc, legacy_loop pt env acc atts = Some (redact_first env t).
Proof.
  intros Hl Ht Hall; revert Hl Hall.
  induction atts as [|b r IH]; intros Hl Hall acc; [discriminate|].
  assert (Hr : forall c, In c r -> mimeType c = "application/pdf" -> pt (content c) <> None)
    by (intros c Hc; apply Hall; right; exact Hc).
  simpl in Hl |- *.
  destruct (last_pdf r) as [b'|] eqn:Er.
  - destruct (String.eqb_spec (mimeType b) "application/pdf") as [Em|Em].
    + destruct (pt (content b)) as [tb|] eqn:Eb;
        [|exfalso; exact (Hall b (or_introl eq_refl) Em Eb)].
      apply IH; auto.
    + apply IH; auto.
  - destruct (String.eqb_spec (mimeType b) "application/pdf") as [Em|Em];
      [|discriminate].
    injection Hl as <-. rewrite Ht. apply legacy_loop_no_pdf; exact Er.
Qed.

(** ** Extras *)

(** X1: the redaction never alters a text in which none of the four
    configured literals occurs, on either path. *)
Theorem X1_redaction_identity_on_clean_text env s :
  JsString.includes (YOUR_NAME env) s = false ->
  JsString.includes (YOUR_EMAIL env) s = false ->
  JsString.includes (YOUR_ADDRESS env) s = false ->
  JsString.includes (YOUR_POSTAL_CODE env) s = false ->
  redact_all env s = s /\ redact_first env s = s.
Proof.
  intros H1 H2 H3 H4; unfold redact_all, redact_first; split.
  - rewrite (replace_all_noop _ _ s H1), (replace_all_noop _ _ s H2),
      (replace_all_noop _ _ s H3), (replace_all_noop _ _ s H4).
    reflexivity.
  - rewrite (replace_noop _ _ s H1), (replace_noop _ _ s H2),
      (replace_noop _ _ s H3), (replace_noop _ _ s H4).
    reflexivity.
Qed.

Lemma X1_redaction_identity_on_clean_text_witness :
  redact_all sample_env "Invoice from Acme $42 USD" = "Invoice from Acme $42 USD" /\
  redact_first sample_env "Invoice from Acme $42 USD" = "Invoice from Acme $42 USD".
Proof. apply X1_redaction_identity_on_clean_text; vm_compute; reflexivity. Defined.

(** X2: without attachments, a non-empty text body is used (redacted)
    and the HTML body ignored; an empty or absent text body falls back to
    the HTML body when the PII literals are configured; with neither body
    the content is empty with source [none]. *)
Theorem X2_body_content_choice pt env e :
  attachments e = [] ->
  (forall t, text e = Some t -> JsString.truthy t = true ->
     extract_text pt env e = Some (mkExtracted (redact_all env t) Body_src)) /\
  (env_configured env = true -> opt_truthy (text e) = false ->
   forall h, html e = Some h -> JsString.truthy h = true ->
     extract_text pt env e = Some (mkExtracted (redact_all env h) Body_src)) /\
  (opt_truthy (text e) = false -> opt_truthy (html e) = false ->
     extract_text pt env e = Some (mkExtracted "" None_src)).
Proof.
  intros Ha; unfold extract_text; rewrite Ha; cbn [length Nat.ltb Nat.leb].
  split; [|split].
  - intros t Ht Tt. rewrite Ht. cbn [opt_truthy option_map js_or].
    rewrite Tt, (redact_all_truthy env t Tt). reflexivity.
  - intros Hc Ht h Hh Th. rewrite Hh. cbn [opt_truthy option_map].
    rewrite Th, orb_true_r. unfold js_or at 2.
    rewrite (redact_all_truthy env h Th).
    destruct (text e) as [t|]; [|reflexivity].
    simpl in Ht. destruct t; [|discriminate].
    cbn [option_map js_or]. rewrite (redact_all_empty env Hc). reflexivity.
  - intros Ht Hh. rewrite Ht, Hh. reflexivity.
Qed.

Lemma X2_body_content_choice_witness :
  extract_text sample_pdf sample_env html_email =
    Some (mkExtracted "<p>Total 42 USD, Payee Name</p>" Body_src).
Proof.
  destruct (X2_body_content_choice sample_pdf sample_env html_email eq_refl) as [_ [P _]].
  exact (P eq_refl eq_refl _ eq_refl eq_refl).
Defined.

(** X3: with attachments, the first attachment whose type is
    [application/pdf] is the one read; attachments after it, PDFs
    included, are never read. *)
Theorem X3_first_pdf_used pt env e pre a post :
  attachments e = (pre ++ a :: post)%list ->
  Forall (fun b => mimeType b <> "application/pdf") pre ->
  mimeType a = "application/pdf" ->
  extract_text pt env e =
    match pt (content a) with
    | Some t => Some (mkExtracted (redact_first env t) Attachment_src)
    | None => None
    end.
Proof.
  intros Hat Hpre Ha; unfold extract_text; rewrite Hat.
  rewrite length_app; cbn [length].
  replace (Nat.ltb 0 (length pre + S (length post))) with true
    by (symmetry; apply Nat.ltb_lt; lia).
  rewrite (first_pdf_app pre a post Hpre Ha). reflexivity.
Qed.

Lemma X3_first_pdf_used_witness :
  extract_text two_pdf_text sample_env two_pdf_email =
    Some (mkExtracted "Invoice for Payee Name" Attachment_src).
Proof.
  exact (X3_first_pdf_used two_pdf_text sample_env two_pdf_email []
           (mkAttachment "invoice.pdf" "application/pdf" [Byte.x01])
           (skipn 1 two_pdf_atts) eq_refl (Forall_nil _) eq_refl).
Defined.

(** X4: the earlier handler (src/unnamed/part_000) has no [break]: when
    every PDF can be read, the content it logs comes from the LAST PDF
    attachment. *)
Theorem X4_legacy_last_pdf_wins pt env atts a t :
  last_pdf atts = Some a -> pt (content a) = Some t ->
  (forall b, In b atts -> mimeType b = "application/pdf" -> pt (content b) <> None) ->
  legacy_email_content pt env atts = Some (redact_first env t).
Proof.
  intros Hl Ht Hall; unfold legacy_email_content.
  destruct atts as [|b r]; [discriminate|]. simpl negb.
  apply legacy_loop_last with (a := a); auto.
Qed.

Lemma X4_legacy_last_pdf_wins_witness :
  legacy_email_content two_pdf_text sample_env two_pdf_atts =
    Some "Receipt for Payee Name".
Proof.
  apply (X4_legacy_last_pdf_wins two_pdf_text sample_env two_pdf_atts
           (mkAttachment "receipt.pdf" "application/pdf" [Byte.x02])
           "Receipt for Jane Doe"); [reflexivity | reflexivity |].
  intros b Hb _; simpl in Hb.
  destruct Hb as [<-|[<-|[<-|[]]]]; discriminate.
Defined.

(** ** Validation of the PostalMime result *)

Lemma m_string_ok pre k v s is :
  m_string pre k v = (Some s, is) -> v = Some (MStr s).
Proof. destruct v as [[]|]; simpl; intros H; inversion H; reflexivity. Qed.

Lemma m_opt_string_ok pre k v o is :
  m_opt_string pre k v = (Some o, is) ->
  (v = None /\ o = None) \/ (exists s, v = Some (MStr s) /\ o = Some s).
Proof.
  destruct v as [[]|]; simpl; intros H; inversion H; subst; eauto.
Qed.

Lemma parse_from_ok v o is :
  parse_from v = (Some o, is) ->
  exists gs, v = Some (MObj gs) /\
    ((mget gs "address" = None /\ o = None) \/
     (exists s, mget gs "address" = Some (MStr s) /\ o = Some s)).
Proof.
  destruct v as [[]|]; simpl; intros H; try discriminate H.
  destruct (m_opt_string [PKey "from"] "address" _) as [[ad|] i1] eqn:E1;
    destruct (m_opt_string [PKey "from"] "name" _) as [[nm|] i2];
    inversion H; subst.
  eexists; split; [reflexivity|]. exact (m_opt_string_ok _ _ _ _ _ E1).
Qed.

Ltac in_issues :=
  repeat rewrite map_app;
  repeat (apply in_or_app; first [left; solve [simpl; auto] | right]);
  simpl; auto.

Ltac close_options :=
  repeat match goal with
         | |- context [match ?x with Some _ => _ | None => _ end] => destruct x
         end; reflexivity.

(** A PostalMime result without [messageId], [subject] or [from] fails
    validation with an issue at that key. *)
Lemma parse_missing_key fs k :
  In k ["messageId"; "subject"; "from"] -> mget fs k = None ->
  exists is, ParsedEmailSchema_parse (MObj fs) = inl is /\ In [PKey k] (map mi_path is).
Proof.
  intros Hk Hm; unfold ParsedEmailSchema_parse.
  destruct Hk as [<-|[<-|[<-|[]]]]; rewrite Hm.
  - cbn [m_string mbad app].
    destruct (m_string [] "subject" _) as [s i2].
    destruct (parse_from _) as [f i3].
    destruct (m_opt_string [] "text" _) as [t i4].
    destruct (m_opt_string [] "html" _) as [h i5].
    destruct (parse_attachments _) as [a i6].
    eexists; split; [close_options|in_issues].
  - destruct (m_string [] "messageId" _) as [m i1].
    cbn [m_string mbad app].
    destruct (parse_from _) as [f i3].
    destruct (m_opt_string [] "text" _) as [t i4].
    destruct (m_opt_string [] "html" _) as [h i5].
    destruct (parse_attachments _) as [a i6].
    eexists; split; [close_options|in_issues].
  - destruct (m_string [] "messageId" _) as [m i1].
    destruct (m_string [] "subject" _) as [s i2].
    cbn [parse_from].
    destruct (m_opt_string [] "text" _) as [t i4].
    destruct (m_opt_string [] "html" _) as [h i5].
    destruct (parse_attachments _) as [a i6].
    eexists; split; [close_options|in_issues].
Qed.

(** X5: a PostalMime result accepted by [ParsedEmailSchema] yields the
    given [messageId] and [subject]; its [from] is an object whose absent
    [address] stays absent (undefined) and whose present address is kept;
    an absent [attachments] key becomes the empty list. *)
Theorem X5_parsed_email_fields fs e :
  ParsedEmailSchema_parse (MObj fs) = inr e ->
  mget fs "messageId" = Some (MStr (messageId e)) /\
  mget fs "subject" = Some (MStr (subject e)) /\
  (exists gs, mget fs "from" = Some (MObj gs) /\
     (mget gs "address" = None <-> from_address e = None) /\
     (forall a, from_address e = Some a <-> mget gs "address" = Some (MStr a))) /\
  (mget fs "attachments" = None -> attachments e = []).
Proof.
  intros H; unfold ParsedEmailSchema_parse in H.
  destruct (m_string [] "messageId" _) as [[m|] i1] eqn:E1;
  destruct (m_string [] "subject" _) as [[s|] i2] eqn:E2;
  destruct (parse_from _) as [[f|] i3] eqn:E3;
  destruct (m_opt_string [] "text" _) as [[t|] i4];
  destruct (m_opt_string [] "html" _) as [[h|] i5];
  destruct (parse_attachments _) as [[a|] i6] eqn:E6;
  try discriminate H.
  injection H as <-; simpl.
  split; [exact (m_string_ok _ _ _ _ _ E1)|].
  split; [exact (m_string_ok _ _ _ _ _ E2)|].
  split.
  - destruct (parse_from_ok _ _ _ E3) as [gs [G [[A ->]|[s' [A ->]]]]];
      exists gs; (split; [exact G|]); rewrite A.
    + split; [tauto|]. intros a'; split; discriminate.
    + split; [split; discriminate|].
      intros a'; split; intros X; inversion X; reflexivity.
  - intros Ha. rewrite Ha in E6. inversion E6; reflexivity.
Qed.

Lemma X5_parsed_email_fields_witness :
  let e := mkParsedEmail "<m6@example.com>" "Invoice" None
             (Some "Invoice from Acme $42 USD") None [] in
  mget [("messageId", MStr "<m6@example.com>"); ("subject", MStr "Invoice");
        ("from", MObj [("name", MStr "Acme Billing")]);
        ("text", MStr "Invoice from Acme $42 USD"); ("headers", MArr [])]
    "messageId" = Some (MStr (messageId e)) /\
  mget [("messageId", MStr "<m6@example.com>"); ("subject", MStr "Invoice");
        ("from", MObj [("name", MStr "Acme Billing")]);
        ("text", MStr "Invoice from Acme $42 USD"); ("headers", MArr [])]
    "subject" = Some (MStr (subject e)) /\
  (exists gs, mget [("messageId", MStr "<m6@example.com>"); ("subject", MStr "Invoice");
        ("from", MObj [("name", MStr "Acme Billing")]);
        ("text", MStr "Invoice from Acme $42 USD"); ("headers", MArr [])]
    "from" = Some (MObj gs) /\
     (mget gs "address" = None <-> from_address e = None) /\
     (forall a, from_address e = Some a <-> mget gs "address" = Some (MStr a))) /\
  (mget [("messageId", MStr "<m6@example.com>"); ("subject", MStr "Invoice");
        ("from", MObj [("name", MStr "Acme Billing")]);
        ("text", MStr "Invoice from Acme $42 USD"); ("headers", MArr [])]
    "attachments" = None -> attachments e = []).
Proof. intros e. apply X5_parsed_email_fields. vm_compute. reflexivity. Defined.

(** X6: a PostalMime result without [messageId], [subject] or [from]
    fails validation with an issue at that key, and the run stops at the
    parse step without touching the database. *)
Theorem X6_missing_header_fails_parse postal pt env ai raw st fs k :
  postal raw = Some (MObj fs) ->
  In k ["messageId"; "subject"; "from"] -> mget fs k = None ->
  (exists is, ParsedEmailSchema_parse (MObj fs) = inl is /\ In [PKey k] (map mi_path is)) /\
  run (parse_email_of postal) pt env ai raw st = (Failed "parse email" ParseError, st).
Proof.
  intros Hp Hk Hm.
  destruct (parse_missing_key fs k Hk Hm) as [is [Hi Hin]].
  split; [exists is; auto|].
  assert (He : parse_email_of postal raw = None)
    by (unfold parse_email_of; rewrite Hp, Hi; reflexivity).
  unfold run, step_do, parse_body; simpl. rewrite He. reflexivity.
Qed.

Lemma X6_missing_header_fails_parse_witness :
  (exists is, ParsedEmailSchema_parse postal_no_subject = inl is /\
              In [PKey "subject"] (map mi_path is)) /\
  run (parse_email_of (postal_of postal_no_subject)) sample_pdf sample_env
      (response_of good_fields) [] (seed_store 0) =
    (Failed "parse email" ParseError, seed_store 0).
Proof.
  exact (X6_missing_header_fails_parse (postal_of postal_no_subject) sample_pdf
           sample_env (response_of good_fields) [] (seed_store 0) _ "subject"
           eq_refl (or_intror (or_introl eq_refl)) eq_refl).
Defined.

(** X7: an email accepted by the schema but without a sender address
    (a [From] header with no address) makes step 2 bind [undefined]: the
    run stops at recordInitialEmailProcessing and records nothing. *)
Theorem X7_missing_from_address_stops_at_record pe pt env ai raw st e :
  pe raw = Some e -> from_address e = None ->
  run pe pt env ai raw st =
    (Failed "recordInitialEmailProcessing" (DbError D1TypeError), st).
Proof.
  intros Hp Hf.
  unfold run, step_do, parse_body, record_body, insert_processed_email; simpl.
  rewrite Hp; simpl. rewrite Hf. reflexivity.
Qed.

Lemma X7_missing_from_address_stops_at_record_witness :
  run (parse_email_of (postal_of postal_named_from)) sample_pdf sample_env
      (response_of good_fields) [] (seed_store 0) =
    (Failed "recordInitialEmailProcessing" (DbError D1TypeError), seed_store 0).
Proof.
  apply (X7_missing_from_address_stops_at_record _ sample_pdf sample_env
           (response_of good_fields) [] (seed_store 0)
           (mkParsedEmail "<m6@example.com>" "Invoice" None
              (Some "Invoice from Acme $42 USD") None []));
    vm_compute; reflexivity.
Defined.

(** ** Runs that reach step 5 *)






(** ** Facts of the validator used by the store *)

Lemma parse_expense_fields j f :
  ExpenseSchema_parse j = inr f ->
  exists fs, j = JObj fs /\
    fst (z_date "expenseDate" (obj_get fs "expenseDate")) = Some (expenseDate f) /\
    fst (z_currency "currencyCode" (obj_get fs "currencyCode")) = Some (currencyCode f).
Proof.
  intros H; destruct j as [| | | | |fs]; try discriminate H.
  exists fs; split; [reflexivity|]. unfold ExpenseSchema_parse in H.
  destruct (z_string "vendor" _) as [[v|] i1];
  destruct (z_date "expenseDate" _) as [[d|] i2] eqn:E2;
  destruct (z_number "amountValue" _) as [[am|] i3];
  destruct (z_currency "currencyCode" _) as [[cu|] i4] eqn:E4;
  destruct (z_string "category" _) as [[k|] i5];
  destruct (z_opt_string "description" _) as [[o|] i6];
  try discriminate H.
  injection H as <-; simpl. rewrite ?E2, ?E4. auto.
Qed.

Lemma z_date_ok k v d : fst (z_date k v) = Some d -> re_full date_re d = true.
Proof.
  intros H; destruct v as [[]|]; cbn [z_date z_string fst] in H; try discriminate H.
  destruct (re_full date_re s) eqn:E; cbn [fst] in H; inversion H; subst; auto.
Qed.




(** ** Lookups in the ledger *)



(** ** Store integrity *)

Lemma nodup_snoc {T} (l : list T) x : NoDup l -> ~ In x l -> NoDup (l ++ [x])%list.
Proof.
  induction l as [|y l IH]; intros Hn Hx; simpl.
  - repeat constructor; simpl; tauto.
  - inversion Hn as [|? ? Hy Hl]; subst. constructor.
    + intros H; apply in_app_or in H as [H|[<-|[]]]; [contradiction|].
      apply Hx; left; reflexivity.
    + apply IH; [exact Hl|]. intros H; apply Hx; right; exact H.
Qed.

Lemma fresh_above (zs : list Z) (s : Z) :
  Forall (fun z => (0 < z <= s)%Z) zs -> ~ In (s + 1)%Z zs.
Proof.
  intros HF H. rewrite Forall_forall in HF. specialize (HF _ H). lia.
Qed.

Lemma bounds_snoc (zs : list Z) (s : Z) :
  (0 <= s)%Z -> Forall (fun z => (0 < z <= s)%Z) zs ->
  Forall (fun z => (0 < z <= s + 1)%Z) (zs ++ [(s + 1)%Z])%list.
Proof.
  intros H0 HF. apply Forall_app; split.
  - eapply Forall_impl; [|exact HF]. simpl; intros; lia.
  - constructor; [lia|constructor].
Qed.

Lemma existsb_false_not_in m l :
  existsb (fun r => String.eqb (le_message_id r) m) l = false ->
  ~ In m (map le_message_id l).
Proof.
  intros H Hin. apply in_map_iff in Hin as [r [Hr Hl]].
  assert (existsb (fun r => String.eqb (le_message_id r) m) l = true)
    by (apply existsb_exists; exists r; split; [exact Hl|]; rewrite Hr;
        apply String.eqb_refl).
  congruence.
Qed.

Lemma existsb_id_in id l :
  existsb (fun r => Z.eqb (le_id r) id) l = true -> In id (map le_id l).
Proof.
  intros H. apply existsb_exists in H as [r [Hl Hr]].
  apply Z.eqb_eq in Hr. rewrite <- Hr. apply in_map; exact Hl.
Qed.

Lemma insert_processed_email_wf m sub from reimb st res st' :
  wf_store st -> insert_processed_email m sub from reimb st = inr (res, st') -> wf_store st'.
Proof.
  intros (S1 & S2 & W1 & W2 & W3 & W4 & W5 & W6) H.
  unfold insert_processed_email in H. destruct from as [f|]; [|discriminate].
  destruct (existsb _ (ledger st)) eqn:Ex; [discriminate|].
  injection H as _ <-. unfold wf_store, ledger_ids in *; simpl.
  rewrite !map_app; simpl.
  split; [lia|]. split; [exact S2|].
  split; [apply nodup_snoc; [exact W1|apply existsb_false_not_in; exact Ex]|].
  split; [apply nodup_snoc; [exact W2|apply fresh_above; exact W3]|].
  split; [apply bounds_snoc; assumption|].
  split; [exact W4|]. split; [exact W5|].
  eapply Forall_impl; [|exact W6]. simpl.
  intros x [Hx Hr]; split; [apply in_or_app; left; exact Hx|exact Hr].
Qed.

Lemma insert_expense_wf id am cu de da ca ve st res st' :
  wf_store st -> insert_expense id am cu de da ca ve st = inr (res, st') -> wf_store st'.
Proof.
  intros (S1 & S2 & W1 & W2 & W3 & W4 & W5 & W6) H.
  unfold insert_expense in H. destruct de as [d|]; [|discriminate].
  destruct (Z.ltb_spec 0 am) as [Ha|]; [|discriminate]. simpl in H.
  destruct (Nat.eqb_spec (String.length cu) 3) as [Hc|]; [|discriminate]. simpl in H.
  destruct (existsb (fun r => Z.eqb (le_id r) id) (ledger st)) eqn:Ef; [|discriminate].
  simpl in H. destruct (existsb (nocase_eqb ca) (categories st)); [|discriminate].
  injection H as _ <-. unfold wf_store, ledger_ids in *; simpl.
  rewrite !map_app; simpl.
  split; [exact S1|]. split; [lia|].
  split; [exact W1|]. split; [exact W2|]. split; [exact W3|].
  split; [apply nodup_snoc; [exact W4|apply fresh_above; exact W5]|].
  split; [apply bounds_snoc; assumption|].
  apply Forall_app; split; [exact W6|].
  constructor; [|constructor]. simpl.
  split; [apply existsb_id_in; exact Ef|]. split; [exact Ha|exact Hc].
Qed.

Lemma set_status_row_id s t id r : le_id (set_status_row s t id r) = le_id r.
Proof. unfold set_status_row; destruct (Z.eqb (le_id r) id); reflexivity. Qed.

Lemma set_status_row_message s t id r :
  le_message_id (set_status_row s t id r) = le_message_id r.
Proof. unfold set_status_row; destruct (Z.eqb (le_id r) id); reflexivity. Qed.

Lemma update_status_wf s id st : wf_store st -> wf_store (snd (update_status s id st)).
Proof.
  unfold wf_store, update_status, ledger_ids; simpl.
  rewrite !map_map.
  rewrite (map_ext (fun x => le_id (set_status_row s (now st) id x)) le_id)
    by apply set_status_row_id.
  rewrite (map_ext (fun x => le_message_id (set_status_row s (now st) id x)) le_message_id)
    by apply set_status_row_message.
  tauto.
Qed.

Lemma record_body_wf e : forall k st, wf_store st -> wf_store (snd (record_body e k st)).
Proof.
  intros k st W; unfold record_body.
  destruct (insert_processed_email _ _ _ _ st) as [k'|[res s]] eqn:E; [exact W|].
  exact (insert_processed_email_wf _ _ _ _ _ _ _ W E).
Qed.

Lemma insert_body_wf r4 rec : forall k st, wf_store st -> wf_store (snd (insert_body r4 rec k st)).
Proof.
  intros k st W; unfold insert_body.
  destruct r4 as [f|e']; [|exact W].
  destruct (emailRecordId rec) as [id|]; [|exact W].
  destruct (Z.eqb id 0); [exact W|].
  destruct (insert_expense _ _ _ _ _ _ _ st) as [k'|[res s]] eqn:E; [exact W|].
  exact (insert_expense_wf _ _ _ _ _ _ _ _ _ _ W E).
Qed.

Lemma finalize_body_wf rec : forall k st, wf_store st -> wf_store (snd (finalize_body rec k st)).
Proof.
  intros k st W; unfold finalize_body.
  destruct (emailRecordId rec) as [id|]; [|exact W].
  destruct (Z.eqb id 0); [exact W|].
  pose proof (update_status_wf processed id st W) as U.
  destruct (update_status processed id st) as [res s]; exact U.
Qed.

Lemma seed_store_wf t : wf_store (seed_store t).
Proof. unfold wf_store; simpl; repeat split; try constructor; lia. Qed.







(** X9: the model call is retried once: when the first call throws or
    its response fails validation, a valid second response still yields
    the parsed expense, after two attempts. *)
Theorem X9_ai_retry_recovers ai c st j f :
  (ai (build_prompt (contentForAi c)) 0 = None \/
   exists j0 is, ai (build_prompt (contentForAi c)) 0 = Some j0 /\
                 ExpenseSchema_parse j0 = inl is) ->
  ai (build_prompt (contentForAi c)) 1 = Some j -> ExpenseSchema_parse j = inr f ->
  step_do defaultConfig (ai_body ai (Ok c)) st = (Ok f, st, 2).
Proof.
  intros H0 H1 Hj; unfold step_do, ai_body; simpl.
  destruct H0 as [N|[j0 [is [A0 P0]]]].
  - rewrite N, H1, Hj; reflexivity.
  - rewrite A0, P0, H1, Hj; reflexivity.
Qed.

Lemma X9_ai_retry_recovers_witness :
  step_do defaultConfig
    (ai_body flaky_ai (Ok (mkExtracted "Invoice from Acme $42 USD" Body_src)))
    (seed_store 0) = (Ok sample_fields, seed_store 0, 2).
Proof.
  apply X9_ai_retry_recovers with (j := JObj good_fields);
    [left; reflexivity | reflexivity | vm_compute; reflexivity].
Defined.



Lemma insert_body_ok_row r4 rec k s x s' :
  insert_body r4 rec k s = (Ok x, s') -> exists row, expenses s' = (expenses s ++ [row])%list.
Proof.
  unfold insert_body; intros H.
  destruct r4 as [f|err]; [|discriminate H].
  destruct (emailRecordId rec) as [id|]; [|discriminate H].
  destruct (Z.eqb id 0); [discriminate H|].
  unfold insert_expense in H.
  destruct (description f) as [d|]; [|discriminate H].
  repeat match goal with
         | H : context [if ?b then _ else _] |- _ => destruct b; [discriminate H|]
         end.
  injection H as _ <-. eexists; reflexivity.
Qed.

(** X11: a completed run appends exactly one expenses row; a run that
    fails at any step leaves the expenses table as it was. *)
Theorem X11_run_expense_rows pe pt env ai raw st :
  (fst (run pe pt env ai raw st) = Completed ->
     exists x, expenses (snd (run pe pt env ai raw st)) = (expenses st ++ [x])%list) /\
  (fst (run pe pt env ai raw st) <> Completed ->
     expenses (snd (run pe pt env ai raw st)) = expenses st).
Proof.
  assert (Hsame : forall A (body : StepBody A) s r s' n,
             (forall k s0, expenses (snd (body k s0)) = expenses s0) ->
             step_do defaultConfig body s = (r, s', n) -> expenses s' = expenses s).
  { intros A body s r s' n Hb H.
    exact (step_do_rel body same_expenses (fun _ => eq_refl)
             (fun a b c Hab Hbc => eq_trans Hbc Hab) Hb s r s' n H). }
  unfold run.
  destruct (step_do _ (parse_body pe raw) st) as [[r1 st1] n1] eqn:E1.
  assert (X1 : expenses st1 = expenses st)
    by (apply (Hsame _ _ _ _ _ _ (fun k s0 => f_equal expenses (parse_body_id pe raw k s0)) E1)).
  destruct r1 as [email|e1]; [|simpl; split; [discriminate|auto]].
  destruct (step_do _ (record_body email) st1) as [[r2 st2] n2] eqn:E2.
  assert (X2 : expenses st2 = expenses st1)
    by (apply (Hsame _ _ _ _ _ _ (record_body_expenses email) E2)).
  destruct r2 as [rec|e2]; [|simpl; split; [discriminate|congruence]].
  destruct (step_do _ (extract_body pt env email) st2) as [[r3 st3] n3] eqn:E3.
  assert (X3 : expenses st3 = expenses st2)
    by (apply (Hsame _ _ _ _ _ _ (fun k s0 => f_equal expenses (extract_body_id pt env email k s0)) E3)).
  destruct (step_do _ (ai_body ai r3) st3) as [[r4 st4] n4] eqn:E4.
  assert (X4 : expenses st4 = expenses st3)
    by (apply (Hsame _ _ _ _ _ _ (fun k s0 => f_equal expenses (ai_body_id ai r3 k s0)) E4)).
  destruct (step_do _ (insert_body r4 rec) st4) as [[r5 st5] n5] eqn:E5.
  destruct (step_do_single _ (insert_body_pure r4 rec) _ _ _ _ E5) as [k5 K5].
  destruct r5 as [x5|e5].
  - destruct (insert_body_ok_row _ _ _ _ _ _ K5) as [row R5].
    destruct (finalize_step_ok rec st5) as [res E6]. rewrite E6.
    pose proof (proj1 (finalize_body_effect rec 0 st5)) as X6.
    simpl; split; [|intros H; exfalso; apply H; reflexivity].
    intros _; exists row. rewrite X6, R5. congruence.
  - pose proof (insert_body_pure _ _ _ _ _ _ K5) as ->.
    simpl; split; [discriminate|congruence].
Qed.

Lemma X11_run_expense_rows_witness :
  exists x, expenses (snd (run (parse_as body_email) sample_pdf sample_env
                             (response_of good_fields) [] (seed_store 0))) =
            (expenses (seed_store 0) ++ [x])%list.
Proof.
  apply (proj1 (X11_run_expense_rows (parse_as body_email) sample_pdf sample_env
                  (response_of good_fields) [] (seed_store 0))).
  vm_compute; reflexivity.
Defined.









(** X16: the date step 5 stores for a validated expenseDate always has
    the SQLite form [YYYY-MM-DD]: four digits, a dash, two digits, a dash,
    two digits. *)
Theorem X16_stored_date_iso j f :
  ExpenseSchema_parse j = inr f ->
  re_full iso_date_re (format_expense_date (expenseDate f)) = true.
Proof.
  intros H.
  destruct (parse_expense_fields j f H) as [fs [_ [Hd _]]].
  destruct (date_re_shape _ (z_date_ok _ _ _ Hd))
    as (c1 & c2 & c4 & c5 & c7 & c8 & c9 & c10 & HF & ->).
  repeat match goal with
         | HF : Forall _ (_ :: _) |- _ => inversion HF; subst; clear HF
         end.
  unfold format_expense_date.
  repeat first [ rewrite split_dash | rewrite split_empty
               | match goal with
                 | H : is_digit ?c = true |- context [JsString.split "-"%char (String ?c _)] =>
                     rewrite (split_digit c _ H)
                 end
               | progress cbn [nth_error JsString.interp append] ].
  cbn [re_full iso_date_re class_ok].
  repeat match goal with H : is_digit _ = true |- _ => rewrite H; clear H end.
  reflexivity.
Qed.

Lemma X16_stored_date_iso_witness :
  re_full iso_date_re (format_expense_date (expenseDate sample_fields)) = true.
Proof. apply (X16_stored_date_iso (JObj good_fields)). vm_compute; reflexivity. Defined.

(** X17: every run preserves the integrity of the store: message ids and
    row ids stay unique and below their AUTOINCREMENT counters, and every
    expense row references an existing processed_emails row, has a
    positive amount and a three-character currency. *)
Theorem X17_run_preserves_integrity pe pt env ai raw st :
  wf_store st -> wf_store (snd (run pe pt env ai raw st)).
Proof.
  revert st.
  apply (run_rel pe pt env ai (fun a b => wf_store a -> wf_store b)).
  - auto.
  - auto.
  - exact record_body_wf.
  - exact insert_body_wf.
  - exact finalize_body_wf.
Qed.

Lemma X17_run_preserves_integrity_witness :
  wf_store (snd (run (parse_as body_email) sample_pdf sample_env
                   (response_of good_fields) [] (seed_store 0))).
Proof. apply X17_run_preserves_integrity. apply seed_store_wf. Defined.

Lemma keeps_history_refl st : keeps_history st st.
Proof. split; [exists []; rewrite app_nil_r; reflexivity|auto]. Qed.

Lemma keeps_history_trans a b c :
  keeps_history a b -> keeps_history b c -> keeps_history a c.
Proof.
  intros [[x1 L1] [C1 E1]] [[x2 L2] [C2 E2]]; split; [|split; [congruence|auto]].
  exists (x1 ++ x2)%list. rewrite L2, L1, app_assoc; reflexivity.
Qed.

Lemma record_body_history e : forall k st, keeps_history st (snd (record_body e k st)).
Proof.
  intros k st; unfold record_body, insert_processed_email.
  destruct (from_address e) as [f|]; [|apply keeps_history_refl].
  destruct (existsb _ _); [apply keeps_history_refl|].
  split; [|split; [reflexivity|simpl; auto]].
  exists [messageId e]; unfold ledger_ids; simpl. rewrite map_app; reflexivity.
Qed.

Lemma insert_body_history r4 rec : forall k st, keeps_history st (snd (insert_body r4 rec k st)).
Proof.
  intros k st; unfold insert_body.
  destruct r4 as [f|err]; [|apply keeps_history_refl].
  destruct (emailRecordId rec) as [id|]; [|apply keeps_history_refl].
  destruct (Z.eqb id 0); [apply keeps_history_refl|].
  unfold insert_expense.
  destruct (description f) as [d|]; [|apply keeps_history_refl].
  repeat match goal with
         | |- context [if ?b then _ else _] => destruct b; [apply keeps_history_refl|]
         end.
  split; [exists []; rewrite app_nil_r; reflexivity|].
  split; [reflexivity|]. intros r H; simpl; apply in_or_app; left; exact H.
Qed.

Lemma finalize_body_history rec : forall k st, keeps_history st (snd (finalize_body rec k st)).
Proof.
  intros k st. destruct (finalize_body_effect rec k st) as [E L].
  split; [exists []; rewrite app_nil_r; exact L|].
  split; [|rewrite E; auto].
  unfold finalize_body.
  destruct (emailRecordId rec) as [id|]; [|reflexivity].
  destruct (Z.eqb id 0); reflexivity.
Qed.

(** X18: a run never deletes or reorders recorded message ids or expense
    rows, and never changes the categories table. *)
Theorem X18_run_only_appends pe pt env ai raw st :
  (exists extra, ledger_ids (snd (run pe pt env ai raw st)) = (ledger_ids st ++ extra)%list) /\
  categories (snd (run pe pt env ai raw st)) = categories st /\
  (forall r, In r (expenses st) -> In r (expenses (snd (run pe pt env ai raw st)))).
Proof.
  exact (run_rel pe pt env ai keeps_history keeps_history_refl keeps_history_trans
           record_body_history insert_body_history finalize_body_history raw st).
Qed.

Lemma filter_id_none (l : list LedgerRow) id :
  ~ In id (map le_id l) -> filter (fun r => Z.eqb (le_id r) id) l = [].
Proof.
  induction l as [|r l IH]; simpl; intros H; [reflexivity|].
  destruct (Z.eqb_spec (le_id r) id); [exfalso; apply H; left; assumption|].
  apply IH; intros X; apply H; right; exact X.
Qed.

Lemma filter_id_unique (l : list LedgerRow) id :
  NoDup (map le_id l) -> In id (map le_id l) ->
  length (filter (fun r => Z.eqb (le_id r) id) l) = 1.
Proof.
  induction l as [|r l IH]; simpl; intros Hn Hin; [contradiction|].
  inversion Hn as [|? ? Hr Hl]; subst.
  destruct (Z.eqb_spec (le_id r) id) as [E|E].
  - subst id. rewrite (filter_id_none l _ Hr). reflexivity.
  - destruct Hin as [X|X]; [contradiction|]. apply IH; assumption.
Qed.

(** X19: [UPDATE processed_emails ... WHERE id = ?] on an existing id of
    the primary key reports exactly one changed row, keeps every other row
    as it was, and keeps the set of recorded message ids. *)
Theorem X19_update_status_single_row s id st :
  NoDup (map le_id (ledger st)) -> In id (map le_id (ledger st)) ->
  db_changes (fst (update_status s id st)) = 1%Z /\
  (forall r, In r (ledger st) -> le_id r <> id -> In r (ledger (snd (update_status s id st)))) /\
  ledger_ids (snd (update_status s id st)) = ledger_ids st.
Proof.
  intros Hn Hin; unfold update_status; simpl.
  split; [rewrite (filter_id_unique _ _ Hn Hin); reflexivity|].
  split.
  - intros r Hr Hne. replace r with (set_status_row s (now st) id r) at 1
      by (unfold set_status_row; destruct (Z.eqb_spec (le_id r) id); [contradiction|reflexivity]).
    apply in_map; exact Hr.
  - unfold ledger_ids; simpl. rewrite map_map. apply map_ext. apply set_status_row_message.
Qed.

Lemma X19_update_status_single_row_witness :
  db_changes (fst (update_status processed 1
     (recorded_store (seed_store 0) body_email "billing@acme.com"))) = 1%Z /\
  (forall r, In r (ledger (recorded_store (seed_store 0) body_email "billing@acme.com")) ->
     le_id r <> 1%Z ->
     In r (ledger (snd (update_status processed 1
       (recorded_store (seed_store 0) body_email "billing@acme.com"))))) /\
  ledger_ids (snd (update_status processed 1
     (recorded_store (seed_store 0) body_email "billing@acme.com"))) =
  ledger_ids (recorded_store (seed_store 0) body_email "billing@acme.com").
Proof.
  apply X19_update_status_single_row;
    [vm_compute; repeat constructor; simpl; tauto | vm_compute; left; reflexivity].
Defined.

(** X20: steps 3 and 4 are not awaited: an unreadable PDF, or a model
    call that throws on both attempts, surfaces as the failure of
    insertExpenseRecord, after the email was recorded; no expense row is
    written and the ledger row stays [pending]. *)
Theorem X20_unawaited_failures_surface_at_insert pe pt env ai raw st e a :
  pe raw = Some e -> from_address e = Some a ->
  count_message (messageId e) st = 0 ->
  (extract_text pt env e = None ->
     run pe pt env ai raw st = (Failed "insertExpenseRecord" PdfError, recorded_store st e a)) /\
  (forall c, extract_text pt env e = Some c ->
     ai (build_prompt (contentForAi c)) 0 = None ->
     ai (build_prompt (contentForAi c)) 1 = None ->
     run pe pt env ai raw st = (Failed "insertExpenseRecord" AiError, recorded_store st e a)) /\
  option_map le_status (find_ledger (messageId e) (recorded_store st e a)) = Some pending.
Proof.
  intros Hp Hf Hc.
  assert (E1 : step_do defaultConfig (parse_body pe raw) st = (Ok e, st, 1))
    by (unfold step_do, parse_body; simpl; rewrite Hp; reflexivity).
  split; [|split; [|apply find_ledger_recorded; exact Hc]].
  - intros Hx.
    assert (E3 : step_do defaultConfig (extract_body pt env e) (recorded_store st e a) =
                 (Throw PdfError, recorded_store st e a, 2))
      by (unfold step_do, extract_body; simpl; rewrite Hx; reflexivity).
    unfold run. rewrite E1, (record_step_fresh st e a Hf Hc), E3. reflexivity.
  - intros c Hx A0 A1.
    assert (E3 : step_do defaultConfig (extract_body pt env e) (recorded_store st e a) =
                 (Ok c, recorded_store st e a, 1))
      by (unfold step_do, extract_body; simpl; rewrite Hx; reflexivity).
    assert (E4 : step_do defaultConfig (ai_body ai (Ok c)) (recorded_store st e a) =
                 (Throw AiError, recorded_store st e a, 2))
      by (unfold step_do, ai_body; simpl; rewrite A0, A1; reflexivity).
    unfold run. rewrite E1, (record_step_fresh st e a Hf Hc), E3, E4. reflexivity.
Qed.

Lemma X20_unawaited_failures_surface_at_insert_witness :
  run (parse_as pdf_email) (fun _ => None) sample_env (response_of good_fields) []
      (seed_store 0) =
    (Failed "insertExpenseRecord" PdfError,
     recorded_store (seed_store 0) pdf_email "billing@acme.com") /\
  run (parse_as body_email) sample_pdf sample_env (fun _ _ => None) [] (seed_store 0) =
    (Failed "insertExpenseRecord" AiError,
     recorded_store (seed_store 0) body_email "billing@acme.com").
Proof.
  split.
  - apply (proj1 (X20_unawaited_failures_surface_at_insert (parse_as pdf_email)
             (fun _ => None) sample_env (response_of good_fields) [] (seed_store 0)
             pdf_email "billing@acme.com" eq_refl eq_refl eq_refl)).
    reflexivity.
  - apply (proj1 (proj2 (X20_unawaited_failures_surface_at_insert (parse_as body_email)
             sample_pdf sample_env (fun _ _ => None) [] (seed_store 0)
             body_email "billing@acme.com" eq_refl eq_refl eq_refl))
             (mkExtracted "Invoice from Acme $42 USD" Body_src));
      [vm_compute | | ]; reflexivity.
Defined.

Lemma parse_attachment_list_elem i0 xs i x is :
  nth_error xs i = Some x ->
  parse_attachment [PKey "attachments"; PIdx (i0 + i)] x = (None, is) ->
  fst (parse_attachment_list i0 xs) = None /\
  (forall m, In m is -> In m (snd (parse_attachment_list i0 xs))).
Proof.
  revert i0 i; induction xs as [|y xs IH]; intros i0 i Hn Hp; [destruct i; discriminate|].
  simpl.
  destruct (parse_attachment [PKey "attachments"; PIdx i0] y) as [ay iy] eqn:Ey.
  destruct (parse_attachment_list (S i0) xs) as [rest ir] eqn:Er.
  destruct i as [|i].
  - simpl in Hn. injection Hn as <-. rewrite Nat.add_0_r in Hp. rewrite Hp in Ey.
    injection Ey as <- <-. simpl. split; [reflexivity|].
    intros m Hm; apply in_or_app; left; exact Hm.
  - simpl in Hn. rewrite <- Nat.add_succ_comm in Hp.
    destruct (IH (S i0) i Hn Hp) as [N I]. rewrite Er in N, I. simpl in N, I.
    subst rest. split; [destruct ay; reflexivity|].
    intros m Hm; apply in_or_app; right; exact (I m Hm).
Qed.

Lemma parse_attachment_bad_content pre gs :
  (forall b, mget gs "content" <> Some (MBuf b)) ->
  exists is, parse_attachment pre (MObj gs) = (None, is) /\
             In (mkMimeIssue (pre ++ [PKey "content"]) mi_custom) is.
Proof.
  intros Hb. unfold parse_attachment.
  assert (Hc : m_buffer pre "content" (mget gs "content") =
               (None, [mkMimeIssue (pre ++ [PKey "content"]) mi_custom])).
  { destruct (mget gs "content") as [[]|]; try reflexivity.
    exfalso; eapply Hb; reflexivity. }
  rewrite Hc.
  destruct (m_string pre "filename" _) as [fn i1].
  destruct (m_string pre "mimeType" _) as [mt i2].
  destruct (m_opt_string pre "contentDisposition" _) as [cd i3].
  destruct (m_opt_string pre "contentId" _) as [ci i4].
  eexists; split; [destruct fn, mt, cd, ci; reflexivity|].
  repeat (apply in_or_app; right). simpl; auto.
Qed.

(** X21: an attachment whose [content] is not an [ArrayBuffer] fails
    [z.instanceof(ArrayBuffer)]: validation reports a [custom] issue at
    [attachments.i.content] and the run stops at the parse step without
    touching the database, whatever the other attachments and bodies. *)
Theorem X21_non_buffer_attachment_rejects_email postal pt env ai raw st fs xs i gs :
  postal raw = Some (MObj fs) ->
  mget fs "attachments" = Some (MArr xs) ->
  nth_error xs i = Some (MObj gs) ->
  (forall b, mget gs "content" <> Some (MBuf b)) ->
  (exists is, ParsedEmailSchema_parse (MObj fs) = inl is /\
     In (mkMimeIssue [PKey "attachments"; PIdx i; PKey "content"] mi_custom) is) /\
  run (parse_email_of postal) pt env ai raw st = (Failed "parse email" ParseError, st).
Proof.
  intros Hp Ha Hn Hb.
  destruct (parse_attachment_bad_content [PKey "attachments"; PIdx (0 + i)] gs Hb)
    as [is [Ep Ei]].
  destruct (parse_attachment_list_elem 0 xs i _ is Hn Ep) as [N I].
  assert (Hparse : exists is', ParsedEmailSchema_parse (MObj fs) = inl is' /\
            In (mkMimeIssue [PKey "attachments"; PIdx i; PKey "content"] mi_custom) is').
  { unfold ParsedEmailSchema_parse. rewrite Ha. cbn [parse_attachments].
    destruct (parse_attachment_list 0 xs) as [al i6]. simpl in N, I. subst al.
    destruct (m_string [] "messageId" _) as [m i1].
    destruct (m_string [] "subject" _) as [s i2].
    destruct (parse_from _) as [f i3].
    destruct (m_opt_string [] "text" _) as [t i4].
    destruct (m_opt_string [] "html" _) as [h i5].
    eexists; split; [close_options|].
    repeat (apply in_or_app; right). apply I. exact Ei. }
  split; [exact Hparse|].
  destruct Hparse as [is' [Hi _]].
  assert (He : parse_email_of postal raw = None)
    by (unfold parse_email_of; rewrite Hp, Hi; reflexivity).
  unfold run, step_do, parse_body; simpl. rewrite He. reflexivity.
Qed.

Lemma X21_non_buffer_attachment_rejects_email_witness :
  (exists is, ParsedEmailSchema_parse postal_string_attachment = inl is /\
     In (mkMimeIssue [PKey "attachments"; PIdx 0; PKey "content"] mi_custom) is) /\
  run (parse_email_of (postal_of postal_string_attachment)) sample_pdf sample_env
      (response_of good_fields) [] (seed_store 0) =
    (Failed "parse email" ParseError, seed_store 0).
Proof.
  apply (X21_non_buffer_attachment_rejects_email (postal_of postal_string_attachment)
           sample_pdf sample_env (response_of good_fields) [] (seed_store 0)
           [("messageId", MStr "<m8@example.com>"); ("subject", MStr "Receipt");
            ("from", MObj [("address", MStr "billing@acme.com")]);
            ("attachments",
             MArr [MObj [("filename", MStr "receipt.pdf");
                         ("mimeType", MStr "application/pdf");
                         ("content", MStr "JVBERi0xLjQK")]])]
           [MObj [("filename", MStr "receipt.pdf"); ("mimeType", MStr "application/pdf");
                  ("content", MStr "JVBERi0xLjQK")]] 0
           [("filename", MStr "receipt.pdf"); ("mimeType", MStr "application/pdf");
            ("content", MStr "JVBERi0xLjQK")]);
    [reflexivity | reflexivity | reflexivity |].
  intros b; vm_compute; discriminate.
Defined.

Lemma iso_not_display d : re_full iso_date_re d = true -> re_full date_re d = false.
Proof.
  intros H.
  destruct d as [|c1 [|c2 [|c3 r]]];
    cbn [re_full iso_date_re date_re class_ok] in H |- *;
    rewrite ?andb_false_r in H; try discriminate H.
  apply andb_prop in H as [_ H]. apply andb_prop in H as [_ H].
  apply andb_prop in H as [H3 _].
  rewrite (digit_not_dash c3 H3), !andb_false_r. reflexivity.
Qed.

(** X22: the validator rejects an expenseDate written in the stored
    format YYYY-MM-DD (as a model may answer): the response fails with an
    issue at [expenseDate]. *)
Theorem X22_iso_date_rejected fs d :
  re_full iso_date_re d = true ->
  exists is, ExpenseSchema_parse (JObj (fs ++ [("expenseDate", JStr d)])%list) = inl is /\
             In ["expenseDate"] (issue_keys is).
Proof.
  intros H. unfold ExpenseSchema_parse. rewrite !obj_get_app_last.
  cbn [String.eqb Ascii.eqb Bool.eqb].
  cbn [z_date z_string]. rewrite (iso_not_display d H).
  destruct (z_string "vendor" _) as [v i1].
  destruct (z_number "amountValue" _) as [am i3].
  destruct (z_currency "currencyCode" _) as [cu i4].
  destruct (z_string "category" _) as [k i5].
  destruct (z_opt_string "description" _) as [o i6].
  eexists; split; [close_options|].
  unfold issue_keys; in_issues.
Qed.

Lemma X22_iso_date_rejected_witness :
  exists is, ExpenseSchema_parse (JObj (good_fields ++ [("expenseDate", JStr "2025-03-05")])%list) =
               inl is /\ In ["expenseDate"] (issue_keys is).
Proof. apply X22_iso_date_rejected. vm_compute; reflexivity. Defined.
